(** * market_monitor: snapshot aggregation and signal evaluation

    A shallow embedding of [scripts/market_monitor.py].

    Numbers.  The script compares Python floats against literals and against
    each other, and it never inspects their bits.  A float is therefore
    modelled by its value: an exact rational, one of the two infinities, or
    NaN.  Every binary64 value is one of these, comparisons on binary64 are
    exact, and so a statement proved for all [pyfloat] holds for all floats.
    Arithmetic ([a - b], [a / b * 100]) is exact on rationals: rounding,
    overflow and the sign of zero are not modelled.  [fear_greed] is a Python
    [int], modelled by [Z].

    Effects.  The fetchers mutate the snapshot object they are given and may
    raise; [evaluate] receives the same object.  Both are written in a small
    state-and-exception monad [Py] whose state is that object.  Whatever the
    outside world answers during one call of [gather_data] is collected in a
    [World]; the two readings of [time.time()] a loop iteration can make are
    part of a [Cycle]. *)

From Stdlib Require Import ZArith QArith Qfield Lia Lqa Bool List String.
Import ListNotations.

Local Open Scope string_scope.
Local Open Scope Q_scope.

(** ** Python floats by value *)

Inductive pyfloat : Type :=
| NaN
| NegInf
| Fin (q : Q)
| PosInf.

Definition Qltb (x y : Q) : bool := negb (Qle_bool y x).

(** [a < b], [a <= b] on floats: any comparison with NaN is false. *)
Definition flt (a b : pyfloat) : bool :=
  match a, b with
  | NaN, _ | _, NaN => false
  | NegInf, NegInf => false
  | NegInf, _ => true
  | Fin x, Fin y => Qltb x y
  | Fin _, PosInf => true
  | Fin _, NegInf => false
  | PosInf, _ => false
  end.

Definition fle (a b : pyfloat) : bool :=
  match a, b with
  | NaN, _ | _, NaN => false
  | NegInf, _ => true
  | Fin x, Fin y => Qle_bool x y
  | Fin _, PosInf => true
  | Fin _, NegInf => false
  | PosInf, PosInf => true
  | PosInf, _ => false
  end.

Definition fgt (a b : pyfloat) : bool := flt b a.
Definition fge (a b : pyfloat) : bool := fle b a.

Definition is_nan (a : pyfloat) : bool :=
  match a with NaN => true | _ => false end.

(** The order the specification speaks of, as relations.  NaN is related to
    nothing. *)
Inductive Flt : pyfloat -> pyfloat -> Prop :=
| Flt_fin (x y : Q) : x < y -> Flt (Fin x) (Fin y)
| Flt_neg_fin (y : Q) : Flt NegInf (Fin y)
| Flt_neg_pos : Flt NegInf PosInf
| Flt_fin_pos (x : Q) : Flt (Fin x) PosInf.

Inductive Feq : pyfloat -> pyfloat -> Prop :=
| Feq_fin (x y : Q) : x == y -> Feq (Fin x) (Fin y)
| Feq_neg : Feq NegInf NegInf
| Feq_pos : Feq PosInf PosInf.

Definition Fle (a b : pyfloat) : Prop := Flt a b \/ Feq a b.
Definition Fgt (a b : pyfloat) : Prop := Flt b a.

(** ** Exceptions and outcomes *)

(** [PyError cls msg] is an instance of a subclass of [Exception];
    [PyInterrupt] stands for [KeyboardInterrupt] and [SystemExit], which derive
    from [BaseException] only and pass through [except Exception]. *)
Inductive pyexn : Type :=
| PyError (cls msg : string)
| PyInterrupt.

Inductive outcome (A : Type) : Type :=
| Returns (a : A)
| Raises (e : pyexn).
Arguments Returns {A} a.
Arguments Raises {A} e.

(** ** The snapshot object (lines 24-35) *)

Definition event : Type := list (string * string).

Record MarketSnapshot : Type := mkSnapshot {
  eth_price : pyfloat;
  market_cap : pyfloat;
  volume : pyfloat;
  rsi : pyfloat;
  macd : pyfloat;
  funding_rate : pyfloat;
  open_interest : pyfloat;
  btc_dominance : pyfloat;
  fear_greed : Z;
  macro_events : list event
}.

(** [MarketSnapshot()] *)
Definition new_snapshot : MarketSnapshot :=
  mkSnapshot (Fin 0) (Fin 0) (Fin 0) (Fin 0) (Fin 0) (Fin 0) (Fin 0) (Fin 0)
             0%Z [].

Definition set_eth_price (v : pyfloat) (s : MarketSnapshot) :=
  mkSnapshot v (market_cap s) (volume s) (rsi s) (macd s) (funding_rate s)
             (open_interest s) (btc_dominance s) (fear_greed s) (macro_events s).
Definition set_market_cap (v : pyfloat) (s : MarketSnapshot) :=
  mkSnapshot (eth_price s) v (volume s) (rsi s) (macd s) (funding_rate s)
             (open_interest s) (btc_dominance s) (fear_greed s) (macro_events s).
Definition set_volume (v : pyfloat) (s : MarketSnapshot) :=
  mkSnapshot (eth_price s) (market_cap s) v (rsi s) (macd s) (funding_rate s)
             (open_interest s) (btc_dominance s) (fear_greed s) (macro_events s).
Definition set_rsi (v : pyfloat) (s : MarketSnapshot) :=
  mkSnapshot (eth_price s) (market_cap s) (volume s) v (macd s) (funding_rate s)
             (open_interest s) (btc_dominance s) (fear_greed s) (macro_events s).
Definition set_macd (v : pyfloat) (s : MarketSnapshot) :=
  mkSnapshot (eth_price s) (market_cap s) (volume s) (rsi s) v (funding_rate s)
             (open_interest s) (btc_dominance s) (fear_greed s) (macro_events s).
Definition set_funding_rate (v : pyfloat) (s : MarketSnapshot) :=
  mkSnapshot (eth_price s) (market_cap s) (volume s) (rsi s) (macd s) v
             (open_interest s) (btc_dominance s) (fear_greed s) (macro_events s).
Definition set_open_interest (v : pyfloat) (s : MarketSnapshot) :=
  mkSnapshot (eth_price s) (market_cap s) (volume s) (rsi s) (macd s)
             (funding_rate s) v (btc_dominance s) (fear_greed s) (macro_events s).
Definition set_btc_dominance (v : pyfloat) (s : MarketSnapshot) :=
  mkSnapshot (eth_price s) (market_cap s) (volume s) (rsi s) (macd s)
             (funding_rate s) (open_interest s) v (fear_greed s) (macro_events s).
Definition set_fear_greed (v : Z) (s : MarketSnapshot) :=
  mkSnapshot (eth_price s) (market_cap s) (volume s) (rsi s) (macd s)
             (funding_rate s) (open_interest s) (btc_dominance s) v (macro_events s).
Definition set_macro_events (v : list event) (s : MarketSnapshot) :=
  mkSnapshot (eth_price s) (market_cap s) (volume s) (rsi s) (macd s)
             (funding_rate s) (open_interest s) (btc_dominance s) (fear_greed s) v.

(** ** Computations on a snapshot object *)

Definition Py (A : Type) : Type := MarketSnapshot -> outcome A * MarketSnapshot.

Definition ret {A : Type} (a : A) : Py A := fun s => (Returns a, s).

Definition raise {A : Type} (e : pyexn) : Py A := fun s => (Raises e, s).

Definition bind {A B : Type} (c : Py A) (k : A -> Py B) : Py B :=
  fun s =>
    match c s with
    | (Returns a, s') => k a s'
    | (Raises e, s') => (Raises e, s')
    end.

Declare Scope py_scope.
Delimit Scope py_scope with py.
Bind Scope py_scope with Py.

Notation "x <- c ;; k" := (bind c (fun x => k))
  (at level 61, c at next level, right associativity) : py_scope.
Notation "c ;; k" := (bind c (fun _ => k))
  (at level 61, right associativity) : py_scope.

(** [snapshot.f] and [snapshot.f = v] *)
Definition getattr {A : Type} (f : MarketSnapshot -> A) : Py A :=
  fun s => (Returns (f s), s).

Definition setattr (upd : MarketSnapshot -> MarketSnapshot) : Py unit :=
  fun s => (Returns tt, upd s).

(** A value that was obtained from outside: it is there, or the call raised. *)
Definition lift {A : Type} (o : outcome A) : Py A := fun s => (o, s).

(** [try: c  except Exception: h] *)
Definition try_except {A : Type} (c : Py A) (h : string -> string -> Py A) : Py A :=
  fun s =>
    match c s with
    | (Raises (PyError cls msg), s') => h cls msg s'
    | r => r
    end.

(** Python's [a and b] on truth values: [b] is evaluated only if [a] holds. *)
Definition and_then (a b : Py bool) : Py bool :=
  (x <- a ;; if x then b else ret false)%py.

Infix "&&&" := and_then (at level 40, left associativity) : py_scope.

Definition gt (x : Py pyfloat) (c : pyfloat) : Py bool := (v <- x ;; ret (fgt v c))%py.
Definition lt (x : Py pyfloat) (c : pyfloat) : Py bool := (v <- x ;; ret (flt v c))%py.
Definition le (x : Py pyfloat) (c : pyfloat) : Py bool := (v <- x ;; ret (fle v c))%py.
Definition gtz (x : Py Z) (c : Z) : Py bool := (v <- x ;; ret (c <? v)%Z)%py.
Definition ltz (x : Py Z) (c : Z) : Py bool := (v <- x ;; ret (v <? c)%Z)%py.

(** ** The decision engine (lines 96-119) *)

Definition GO_LONG : string := "GO LONG".
Definition SELL : string := "SELL".

Definition evaluate (last_oi : option pyfloat) : Py (option string) :=
  (buy <- gt (getattr rsi) (Fin 60)
          &&& gt (getattr macd) (Fin 0)
          &&& gt (getattr eth_price) (Fin 3550)
          &&& lt (getattr btc_dominance) (Fin (119 # 2))
          &&& le (getattr funding_rate) (Fin 0)
          &&& match last_oi with
              | None => ret false
              | Some prev => gt (getattr open_interest) prev
              end
          &&& gtz (getattr fear_greed) 60 ;;
   sell <- lt (getattr rsi) (Fin 40)
           &&& lt (getattr macd) (Fin 0)
           &&& lt (getattr eth_price) (Fin 3550)
           &&& gt (getattr btc_dominance) (Fin (119 # 2))
           &&& gt (getattr funding_rate) (Fin 0)
           &&& match last_oi with
               | None => ret false
               | Some prev => lt (getattr open_interest) prev
               end
           &&& ltz (getattr fear_greed) 40 ;;
   if (buy : bool) then ret (Some GO_LONG)
   else if (sell : bool) then ret (Some SELL)
   else ret None)%py.

(** The truth values the locals [buy] and [sell] end up with (lines 97-114),
    read off the fields without running the program. *)
Definition buy_value (s : MarketSnapshot) (last_oi : option pyfloat) : bool :=
  fgt (rsi s) (Fin 60) && fgt (macd s) (Fin 0) && fgt (eth_price s) (Fin 3550)
  && flt (btc_dominance s) (Fin (119 # 2)) && fle (funding_rate s) (Fin 0)
  && match last_oi with None => false | Some prev => fgt (open_interest s) prev end
  && (60 <? fear_greed s)%Z.

Definition sell_value (s : MarketSnapshot) (last_oi : option pyfloat) : bool :=
  flt (rsi s) (Fin 40) && flt (macd s) (Fin 0) && flt (eth_price s) (Fin 3550)
  && fgt (btc_dominance s) (Fin (119 # 2)) && fgt (funding_rate s) (Fin 0)
  && match last_oi with None => false | Some prev => flt (open_interest s) prev end
  && (fear_greed s <? 40)%Z.

(** The two rule sets as the specification words them. *)
Definition long_rule (s : MarketSnapshot) (previous : option pyfloat) : Prop :=
  Fgt (rsi s) (Fin 60) /\
  Fgt (macd s) (Fin 0) /\
  Fgt (eth_price s) (Fin 3550) /\
  Flt (btc_dominance s) (Fin (119 # 2)) /\
  Fle (funding_rate s) (Fin 0) /\
  (exists prev, previous = Some prev /\ Fgt (open_interest s) prev) /\
  (fear_greed s > 60)%Z.

Definition short_rule (s : MarketSnapshot) (previous : option pyfloat) : Prop :=
  Flt (rsi s) (Fin 40) /\
  Flt (macd s) (Fin 0) /\
  Flt (eth_price s) (Fin 3550) /\
  Fgt (btc_dominance s) (Fin (119 # 2)) /\
  Fgt (funding_rate s) (Fin 0) /\
  (exists prev, previous = Some prev /\ Flt (open_interest s) prev) /\
  (fear_greed s < 40)%Z.

(** ** Indicator series (what lines 50-52 ask of pandas and ta) *)

(** A pandas series of floats computed from finite prices: [None] is NaN. *)
Definition series : Type := list (option Q).

Definition of_cell (c : option Q) : pyfloat :=
  match c with Some q => Fin q | None => NaN end.

(** [x.diff(1)]: the first cell has no predecessor and is NaN. *)
Fixpoint diff_from (prev : Q) (xs : list Q) : series :=
  match xs with
  | [] => []
  | x :: r => Some (x - prev) :: diff_from x r
  end.

Definition diff (xs : list Q) : series :=
  match xs with
  | [] => []
  | x :: r => None :: diff_from x r
  end.

(** [d.where(d > 0, 0.0)] and [-d.where(d < 0, 0.0)]: a NaN cell fails the
    test and is replaced like any other. *)
Definition up_direction (d : series) : series :=
  map (fun c => match c with
                | Some v => Some (if Qltb 0 v then v else 0)
                | None => Some 0
                end) d.

Definition down_direction (d : series) : series :=
  map (fun c => match c with
                | Some v => Some (- (if Qltb v 0 then v else 0))
                | None => Some (- 0)
                end) d.

(** The exponentially weighted running mean with weight [alpha] on the newest
    cell (Wilder's smoothing and the EMAs of section 4.1 are instances):
    [w] is the mean so far (absent until the first observation), [nobs] the
    number of observations so far; a cell is left undefined (NaN) until [minp]
    observations were seen.  The series built below have undefined cells only
    before their first observation. *)
Fixpoint ewm_mean (alpha : Q) (minp : nat) (w : option Q) (nobs : nat)
         (xs : series) : series :=
  match xs with
  | [] => []
  | cur :: r =>
      let nobs' := match cur with Some _ => S nobs | None => nobs end in
      let w' := match w, cur with
                | Some y, Some x => Some ((1 - alpha) * y + alpha * x)
                | Some y, None => Some y
                | None, _ => cur
                end in
      (if (minp <=? nobs')%nat then w' else None) :: ewm_mean alpha minp w' nobs' r
  end.

Definition ewm (alpha : Q) (minp : nat) (xs : series) : series :=
  ewm_mean alpha minp None 0 xs.

Definition series_sub (a b : series) : series :=
  map (fun p => match p with
                | (Some x, Some y) => Some (x - y)
                | _ => None
                end) (combine a b).

(** [np.where(emadn == 0, 100, 100 - (100 / (1 + emaup / emadn)))] *)
Definition rsi_cell (p : option Q * option Q) : pyfloat :=
  match p with
  | (Some up, Some dn) =>
      if Qeq_bool dn 0 then Fin 100 else Fin (100 - 100 / (1 + up / dn))
  | _ => NaN
  end.

(** Modelled from the spec: the RSI series belongs to the third-party package
    [ta], which is not under src/.  Section 4.1 gives the formula: Wilder's
    smoothing (weight 1/window) of the up-moves and of the down-moves, their
    ratio put on the 0-100 scale; an all-up window reads 100.  This is the
    series of a price sequence the calculator accepts, 26 prices or more; a
    shorter one is refused by [RSIIndicator] below before any series is
    formed.  The cells before a full window are not yet defined. *)
Definition RSIIndicator_rsi (close : list Q) (window : nat) : list pyfloat :=
  let d := diff close in
  let emaup := ewm (1 / inject_Z (Z.of_nat window)) window (up_direction d) in
  let emadn := ewm (1 / inject_Z (Z.of_nat window)) window (down_direction d) in
  map rsi_cell (combine emaup emadn).

(** The exponential moving average of span [periods]: weight
    [2 / (periods + 1)], not defined before [periods] cells were seen. *)
Definition ema (xs : series) (periods : nat) : series :=
  ewm (2 / (inject_Z (Z.of_nat periods) + 1)) periods xs.

(** Modelled from the spec: the MACD series belongs to the third-party
    package [ta], which is not under src/.  Section 4.1: the MACD line is
    EMA(fast) minus EMA(slow), the signal line is the EMA(sign) of the MACD
    line, taken from the first cell in which the line is defined, and the
    differential is the line minus its signal.  This is the series of a price
    sequence the calculator accepts: with 26 prices or more the slow mean, the
    line, the signal and the differential are defined at the last position; a
    shorter sequence is refused by [MACD] below. *)
Definition MACD_macd_diff (close : list Q) (window_slow window_fast window_sign : nat)
  : list pyfloat :=
  let c := map Some close in
  let line := series_sub (ema c window_fast) (ema c window_slow) in
  let signal := ewm (2 / (inject_Z (Z.of_nat window_sign) + 1)) 1 line in
  map of_cell (series_sub line signal).

(** Modelled from the spec: the error of the Indicator Calculator, which is
    not under src/ (sections 4.1 and 7: fewer than 26 input points is the
    error condition InsufficientData). *)
Definition InsufficientData : pyexn :=
  PyError "InsufficientData" "fewer than 26 closing prices".

(** Modelled from the spec: [RSIIndicator(close=..., window=...).rsi()] of the
    package [ta], not under src/, is one of the two entries of the Indicator
    Calculator; section 4.1: given at least 26 closing prices it computes the
    RSI series, and fewer than 26 input points is InsufficientData. *)
Definition RSIIndicator (close : list Q) (window : nat) : outcome (list pyfloat) :=
  if (List.length close <? 26)%nat then Raises InsufficientData
  else Returns (RSIIndicator_rsi close window).

(** Modelled from the spec: [MACD(close=..., ...).macd_diff()] of the package
    [ta], not under src/, is the other entry of the Indicator Calculator;
    section 4.1: given at least 26 closing prices it computes the
    differential series, and fewer than 26 input points is
    InsufficientData. *)
Definition MACD (close : list Q) (window_slow window_fast window_sign : nat)
  : outcome (list pyfloat) :=
  if (List.length close <? 26)%nat then Raises InsufficientData
  else Returns (MACD_macd_diff close window_slow window_fast window_sign).

(** [x.iloc[-1]] *)
Definition iloc_last {A : Type} (xs : list A) : outcome A :=
  match rev xs with
  | [] => Raises (PyError "IndexError" "single positional indexer is out-of-bounds")
  | x :: _ => Returns x
  end.

(** ** The outside world during one [gather_data] *)

(** What each request, decoded as the adapter decodes it, comes back with.
    The three CoinGecko ETH numbers arrive together; the two market
    capitalisations of the dominance adapter are finite JSON numbers. *)
Record World : Type := mkWorld {
  coingecko_eth : outcome (pyfloat * pyfloat * pyfloat);
  binance_klines : outcome (list Q);
  funding : outcome pyfloat;
  binance_open_interest : outcome pyfloat;
  coingecko_btc : outcome Q;
  coingecko_global : outcome Q;
  fear_greed_index : outcome Z;
  forex_factory : outcome (list event)
}.

Definition with_forex_factory (o : outcome (list event)) (w : World) : World :=
  mkWorld (coingecko_eth w) (binance_klines w) (funding w)
          (binance_open_interest w) (coingecko_btc w) (coingecko_global w)
          (fear_greed_index w) o.

Definition with_binance_klines (o : outcome (list Q)) (w : World) : World :=
  mkWorld (coingecko_eth w) o (funding w)
          (binance_open_interest w) (coingecko_btc w) (coingecko_global w)
          (fear_greed_index w) (forex_factory w).

Definition with_coingecko_eth (o : outcome (pyfloat * pyfloat * pyfloat)) (w : World)
  : World :=
  mkWorld o (binance_klines w) (funding w)
          (binance_open_interest w) (coingecko_btc w) (coingecko_global w)
          (fear_greed_index w) (forex_factory w).

(** ** Source adapters (lines 38-81) *)

Definition fetch_eth_market (w : World) : Py unit :=
  (data <- lift (coingecko_eth w) ;;
   let '(price, cap, vol) := data in
   setattr (set_eth_price price) ;;
   setattr (set_market_cap cap) ;;
   setattr (set_volume vol))%py.

Definition fetch_rsi_macd (w : World) : Py unit :=
  (closes <- lift (binance_klines w) ;;
   rsi_series <- lift (RSIIndicator closes 14) ;;
   r <- lift (iloc_last rsi_series) ;;
   setattr (set_rsi r) ;;
   macd_series <- lift (MACD closes 26 12 9) ;;
   m <- lift (iloc_last macd_series) ;;
   setattr (set_macd m))%py.

Definition fetch_funding_rate (w : World) : Py unit :=
  (v <- lift (funding w) ;; setattr (set_funding_rate v))%py.

Definition fetch_open_interest (w : World) : Py unit :=
  (v <- lift (binance_open_interest w) ;; setattr (set_open_interest v))%py.

(** The quotient is exact here; Python stores its rounding to binary64.  The
    statements below use the stored value only through what holds of both:
    whether it was stored, and bounds that rounding keeps. *)
Definition fetch_btc_dominance (w : World) : Py unit :=
  (btc <- lift (coingecko_btc w) ;;
   total <- lift (coingecko_global w) ;;
   if Qeq_bool total 0
   then raise (PyError "ZeroDivisionError" "division by zero")
   else setattr (set_btc_dominance (Fin (btc / total * 100))))%py.

Definition fetch_fear_greed (w : World) : Py unit :=
  (v <- lift (fear_greed_index w) ;; setattr (set_fear_greed v))%py.

Definition fetch_macro_events (w : World) : Py unit :=
  try_except
    (evs <- lift (forex_factory w) ;; setattr (set_macro_events evs))%py
    (fun _ _ => setattr (set_macro_events [])).

(** ** The aggregator (lines 84-93) *)

Definition gather_data (w : World) : outcome MarketSnapshot :=
  match (fetch_eth_market w ;;
         fetch_rsi_macd w ;;
         fetch_funding_rate w ;;
         fetch_open_interest w ;;
         fetch_btc_dominance w ;;
         fetch_fear_greed w ;;
         fetch_macro_events w)%py new_snapshot with
  | (Returns _, snap) => Returns snap
  | (Raises e, _) => Raises e
  end.

(** ** The monitor loop (lines 122-140) *)

(** What the loop does to the outside. *)
Inductive effect : Type :=
| Print (line : string)
| Sleep (seconds : Q).

(** The two locals that survive an iteration. *)
Record CycleState : Type := mkState {
  last_oi : option pyfloat;
  last_message : Q
}.

(** What one iteration receives from outside: the answers to its requests,
    and what the first and the second call of [time.time()] return (an
    iteration makes at most two). *)
Record Cycle : Type := mkCycle {
  world : World;
  now1 : Q;
  now2 : Q
}.

(** [if signal:] on an [Optional[str]] *)
Definition truthy (signal : option string) : bool :=
  match signal with
  | None => false
  | Some s => negb (String.eqb s "")
  end.

Definition str (signal : option string) : string :=
  match signal with
  | None => "None"
  | Some s => s
  end.

Definition HEARTBEAT : string := "I'm still checking".

(** The body of [try] (lines 127-135).  Only its first two statements can
    raise, and nothing was printed or assigned before them, so a raise leaves
    no trace but the exception. *)
Definition try_body (c : Cycle) (st : CycleState)
  : outcome (CycleState * list effect) :=
  match gather_data (world c) with
  | Raises e => Raises e
  | Returns snap =>
      match evaluate (last_oi st) snap with
      | (Raises e, _) => Raises e
      | (Returns signal, snap') =>
          let '(stamp, out) :=
            if truthy signal then (now1 c, [Print (str signal)])
            else if Qle_bool 3600 (now1 c - last_message st)
                 then (now2 c, [Print HEARTBEAT])
                 else (last_message st, []) in
          Returns (mkState (Some (open_interest snap')) stamp, out)
      end
  end.

(** [try: ... except Exception as exc: print(f"Error: {exc}")] *)
Definition iteration (c : Cycle) (st : CycleState)
  : CycleState * list effect * option pyexn :=
  match try_body c st with
  | Returns (st', out) => (st', out, None)
  | Raises (PyError _ msg) => (st, [Print ("Error: " ++ msg)], None)
  | Raises PyInterrupt => (st, [], Some PyInterrupt)
  end.

(** How an observed run of the loop stands: still looping (the observation
    ended), left through [break], or left by an exception nobody caught. *)
Inductive status : Type :=
| Looping
| Returned
| Uncaught (e : pyexn).

(** [while True: ...], observed for as many iterations as [cs] describes. *)
Fixpoint main_loop (run_forever : bool) (cs : list Cycle) (st : CycleState)
  : list effect * CycleState * status :=
  match cs with
  | [] => ([], st, Looping)
  | c :: cs' =>
      match iteration c st with
      | (st', out, Some e) => (out, st', Uncaught e)
      | (st', out, None) =>
          if negb run_forever then (out, st', Returned)
          else
            let '(rest, st'', r) := main_loop run_forever cs' st' in
            ((out ++ Sleep 300 :: rest)%list, st'', r)
      end
  end.

Definition main (run_forever : bool) (cs : list Cycle)
  : list effect * CycleState * status :=
  main_loop run_forever cs (mkState None 0).

(** *** Vocabulary for statements about runs *)

(** The iteration gathers a snapshot and the engine gives no signal on it. *)
Definition quiet (c : Cycle) (st : CycleState) : bool :=
  match gather_data (world c) with
  | Returns snap =>
      match evaluate (last_oi st) snap with
      | (Returns signal, _) => negb (truthy signal)
      | _ => false
      end
  | Raises _ => false
  end.

(** Every iteration of the span is quiet, each in the state the previous
    ones left. *)
Fixpoint quiet_span (cs : list Cycle) (st : CycleState) : bool :=
  match cs with
  | [] => true
  | c :: cs' => quiet c st && quiet_span cs' (fst (fst (iteration c st)))
  end.

(** All clock readings of the span lie in a window [a, a + 3600). *)
Definition within_idle_interval (a : Q) (cs : list Cycle) : Prop :=
  Forall (fun c => a <= now1 c /\ now1 c < a + 3600 /\
                   a <= now2 c /\ now2 c < a + 3600) cs.

Definition heartbeats (out : list effect) : nat :=
  List.length (filter (fun e => match e with
                           | Print l => String.eqb l HEARTBEAT
                           | Sleep _ => false
                           end) out).

Definition prints (out : list effect) : list string :=
  flat_map (fun e => match e with Print l => [l] | Sleep _ => [] end) out.

Definition sleeps (out : list effect) : list Q :=
  flat_map (fun e => match e with Sleep d => [d] | Print _ => [] end) out.

(** Rows of [Sleep 300] only: what a stretch of silent iterations shows. *)
Definition idle (n : nat) : list effect := repeat (Sleep 300) n.

(** *** Price sequences *)

Fixpoint increasing_from (prev : Q) (xs : list Q) : Prop :=
  match xs with
  | [] => True
  | x :: r => prev < x /\ increasing_from x r
  end.

Definition strictly_increasing (xs : list Q) : Prop :=
  match xs with
  | [] => True
  | x :: r => increasing_from x r
  end.

Fixpoint decreasing_from (prev : Q) (xs : list Q) : Prop :=
  match xs with
  | [] => True
  | x :: r => x < prev /\ decreasing_from x r
  end.

Definition strictly_decreasing (xs : list Q) : Prop :=
  match xs with
  | [] => True
  | x :: r => decreasing_from x r
  end.

(** *** Sample worlds *)

(** Every source answers, and nothing in the answers is remarkable. *)
Definition calm_world : World :=
  mkWorld (Returns (Fin 3000, Fin 360000000000, Fin 15000000000))
          (Returns (repeat 3000 40))
          (Returns (Fin (1 # 10000)))
          (Returns (Fin 12000))
          (Returns 1200000000000)
          (Returns 2100000000000)
          (Returns 50%Z)
          (Returns []).

(** The price feed is unreachable. *)
Definition price_feed_down : World :=
  with_coingecko_eth (Raises (PyError "ConnectionError" "connection refused"))
                     calm_world.

(** Every source answers but the sentiment index, which times out. *)
Definition sentiment_feed_down : World :=
  mkWorld (Returns (Fin 3000, Fin 360000000000, Fin 15000000000))
          (Returns (repeat 3000 40))
          (Returns (Fin (1 # 10000)))
          (Returns (Fin 12000))
          (Returns 1200000000000)
          (Returns 2100000000000)
          (Raises (PyError "Timeout" "read timed out"))
          (Returns []).

(** Thirty closes, each one unit above the one before. *)
Definition rising_closes : list Q :=
  map (fun k => inject_Z (Z.of_nat k)) (seq 3000 30).

(** Ten iterations five minutes apart, the first at [t]. *)
Definition ten_cycles (w : World) (t : Q) : list Cycle :=
  map (fun k => mkCycle w (t + 300 * inject_Z (Z.of_nat k))
                          (t + 300 * inject_Z (Z.of_nat k) + 1))
      (seq 0 10).

(** *** Further vocabulary *)

(** A series that is NaN in its first [k] cells and a number satisfying [P]
    in every later cell. *)
Definition shaped (k : nat) (P : Q -> Prop) (xs : series) : Prop :=
  exists vs, xs = (repeat None k ++ map Some vs)%list /\ Forall P vs.

(** The effect is a printed line. *)
Definition is_print (e : effect) : Prop :=
  match e with Print _ => True | Sleep _ => False end.

(** The line the loop prints when the aggregator fails in iteration [c]. *)
Definition error_line (c : Cycle) : string :=
  match gather_data (world c) with
  | Raises (PyError _ msg) => "Error: " ++ msg
  | _ => ""
  end.

(** The aggregator fails with an error in iteration [c]. *)
Definition gather_fails (c : Cycle) : Prop :=
  exists cls msg, gather_data (world c) = Raises (PyError cls msg).

(** * Properties *)

(** ** Comparisons *)

Lemma Qltb_iff (x y : Q) : Qltb x y = true <-> x < y.
Proof.
  unfold Qltb. rewrite negb_true_iff. split.
  - intro H. apply Qnot_le_lt. intro Hle.
    apply Qle_bool_iff in Hle. congruence.
  - intro H. destruct (Qle_bool y x) eqn:E; [|reflexivity].
    apply Qle_bool_iff in E. exfalso. apply (Qlt_not_le _ _ H E).
Qed.

Lemma flt_iff (a b : pyfloat) : flt a b = true <-> Flt a b.
Proof.
  split.
  - destruct a, b; simpl; intro H; try discriminate; try constructor.
    now apply Qltb_iff.
  - intro H. destruct H; simpl; try reflexivity. now apply Qltb_iff.
Qed.

Lemma fle_iff (a b : pyfloat) : fle a b = true <-> Fle a b.
Proof.
  unfold Fle. split.
  - destruct a, b; simpl; intro H; try discriminate;
      try (left; constructor; fail); try (right; constructor; fail).
    apply Qle_bool_iff in H. apply Qle_lteq in H. destruct H as [H|H].
    + left. now constructor.
    + right. now constructor.
  - intros [H|H]; destruct H; simpl; try reflexivity; apply Qle_bool_iff.
    + now apply Qlt_le_weak.
    + now apply Qle_lteq; right.
Qed.

Lemma fgt_iff (a b : pyfloat) : fgt a b = true <-> Fgt a b.
Proof. unfold fgt, Fgt. apply flt_iff. Qed.

Lemma flt_nan_l (b : pyfloat) : flt NaN b = false.
Proof. reflexivity. Qed.

Lemma flt_nan_r (a : pyfloat) : flt a NaN = false.
Proof. destruct a; reflexivity. Qed.

(** No float is below 40 and above 60. *)
Lemma flt_40_60_exclusive (v : pyfloat) :
  fgt v (Fin 60) && flt v (Fin 40) = false.
Proof.
  destruct v as [| |q|]; try reflexivity.
  unfold fgt; simpl.
  destruct (Qltb 60 q) eqn:E1; [|reflexivity].
  destruct (Qltb q 40) eqn:E2; [|reflexivity].
  apply Qltb_iff in E1. apply Qltb_iff in E2. exfalso. lra.
Qed.

(** ** The decision engine runs like its pure reading *)

Lemma evaluate_run (last_oi : option pyfloat) (s : MarketSnapshot) :
  evaluate last_oi s =
  (Returns (if buy_value s last_oi then Some GO_LONG
            else if sell_value s last_oi then Some SELL
            else None), s).
Proof.
  unfold evaluate, buy_value, sell_value, and_then, gt, lt, le, gtz, ltz,
    bind, getattr, ret.
  destruct last_oi as [prev|];
    repeat match goal with
           | |- context [if ?b then _ else _] =>
               match b with
               | fgt _ _ => destruct b
               | flt _ _ => destruct b
               | fle _ _ => destruct b
               | Z.ltb _ _ => destruct b
               end; cbn [andb]
           end; reflexivity.
Qed.

Lemma buy_value_iff (s : MarketSnapshot) (previous : option pyfloat) :
  buy_value s previous = true <-> long_rule s previous.
Proof.
  unfold buy_value, long_rule.
  rewrite !andb_true_iff, !fgt_iff, flt_iff, fle_iff, Z.ltb_lt.
  split.
  - intros [[[[[[H1 H2] H3] H4] H5] H6] H7].
    repeat split; try assumption; try lia.
    destruct previous as [prev|]; [|discriminate].
    exists prev. split; [reflexivity|]. now apply fgt_iff.
  - intros (H1 & H2 & H3 & H4 & H5 & (prev & -> & H6) & H7).
    repeat split; try assumption; try lia. now apply fgt_iff.
Qed.

Lemma sell_value_iff (s : MarketSnapshot) (previous : option pyfloat) :
  sell_value s previous = true <-> short_rule s previous.
Proof.
  unfold sell_value, short_rule.
  rewrite !andb_true_iff, !fgt_iff, !flt_iff, Z.ltb_lt.
  split.
  - intros [[[[[[H1 H2] H3] H4] H5] H6] H7].
    repeat split; try assumption.
    destruct previous as [prev|]; [|discriminate].
    exists prev. split; [reflexivity|]. now apply flt_iff.
  - intros (H1 & H2 & H3 & H4 & H5 & (prev & -> & H6) & H7).
    repeat split; try assumption. now apply flt_iff.
Qed.

Lemma buy_sell_exclusive (s : MarketSnapshot) (last_oi : option pyfloat) :
  buy_value s last_oi && sell_value s last_oi = false.
Proof.
  destruct (buy_value s last_oi) eqn:B; [|reflexivity].
  destruct (sell_value s last_oi) eqn:S; [|reflexivity].
  exfalso. unfold buy_value in B. unfold sell_value in S.
  rewrite !andb_true_iff in B, S.
  destruct B as [[[[[[B1 _] _] _] _] _] _].
  destruct S as [[[[[[S1 _] _] _] _] _] _].
  pose proof (flt_40_60_exclusive (rsi s)) as X.
  rewrite B1, S1 in X. discriminate.
Qed.

(** ** C1 *)

(** C1.  For every snapshot and every previous open interest, [evaluate]
    returns one of three results and never raises: "GO LONG" exactly when the
    seven LONG conditions hold, "SELL" exactly when the seven SHORT conditions
    hold, and none exactly when neither rule set holds. *)
Theorem evaluate_three_outcomes :
  forall (s : MarketSnapshot) (previous : option pyfloat),
    (exists r, evaluate previous s = (Returns r, s) /\
               (r = Some "GO LONG" \/ r = Some "SELL" \/ r = None)) /\
    (evaluate previous s = (Returns (Some "GO LONG"), s) <-> long_rule s previous) /\
    (evaluate previous s = (Returns (Some "SELL"), s) <-> short_rule s previous) /\
    (evaluate previous s = (Returns None, s) <->
       ~ long_rule s previous /\ ~ short_rule s previous).
Proof.
  intros s previous.
  rewrite evaluate_run.
  rewrite <- buy_value_iff, <- sell_value_iff.
  pose proof (buy_sell_exclusive s previous) as X.
  destruct (buy_value s previous), (sell_value s previous);
    try discriminate X; unfold GO_LONG, SELL;
    (split; [eexists; split; [reflexivity|tauto]|]);
    repeat split; intros; try discriminate; try congruence; try tauto;
    intuition congruence.
Qed.

(** ** C3 *)

(** C3.  With the previous open interest unknown, [evaluate] returns none,
    whatever the snapshot holds. *)
Theorem evaluate_unknown_previous :
  forall s : MarketSnapshot, evaluate None s = (Returns None, s).
Proof.
  intro s. rewrite evaluate_run.
  assert (B : buy_value s None = false).
  { unfold buy_value. now rewrite andb_false_r. }
  assert (S : sell_value s None = false).
  { unfold sell_value. now rewrite andb_false_r. }
  now rewrite B, S.
Qed.

(** ** C7 *)

(** C7.  No snapshot and previous open interest satisfy the seven LONG
    conditions and the seven SHORT conditions together; accordingly the locals
    [buy] and [sell] are never both true. *)
Theorem long_short_mutually_exclusive :
  forall (s : MarketSnapshot) (previous : option pyfloat),
    ~ (long_rule s previous /\ short_rule s previous) /\
    buy_value s previous && sell_value s previous = false.
Proof.
  intros s previous. split; [|apply buy_sell_exclusive].
  rewrite <- buy_value_iff, <- sell_value_iff. intros [B S].
  pose proof (buy_sell_exclusive s previous) as X.
  rewrite B, S in X. discriminate.
Qed.

(** ** C9 *)

(** C9.  [evaluate] is deterministic and free of side effects: run on a
    snapshot object it returns a result and leaves every field of the object
    as it was, and a second evaluation on the same object and previous open
    interest returns the identical result, again without changing it. *)
Theorem evaluate_deterministic_pure :
  forall (s : MarketSnapshot) (previous : option pyfloat),
    exists r : option string,
      evaluate previous s = (Returns r, s) /\
      (r1 <- evaluate previous ;; r2 <- evaluate previous ;; ret (r1, r2))%py s
      = (Returns (r, r), s).
Proof.
  intros s previous. eexists. split.
  - apply evaluate_run.
  - unfold bind. rewrite !evaluate_run. reflexivity.
Qed.

(** ** C10 *)

Lemma evaluate_on_nan (s : MarketSnapshot) (previous : option pyfloat) :
  is_nan (rsi s) = true \/ is_nan (macd s) = true ->
  evaluate previous s = (Returns None, s).
Proof.
  intro H. rewrite evaluate_run.
  assert (B : buy_value s previous = false).
  { unfold buy_value, fgt.
    destruct H as [H|H].
    - destruct (rsi s); try discriminate H. reflexivity.
    - destruct (macd s); try discriminate H.
      simpl. now rewrite andb_false_r. }
  assert (S : sell_value s previous = false).
  { unfold sell_value.
    destruct H as [H|H].
    - destruct (rsi s); try discriminate H. reflexivity.
    - destruct (macd s); try discriminate H.
      simpl. now rewrite andb_false_r. }
  now rewrite B, S.
Qed.

(** C10.  [evaluate] is total on float fields, NaN included: on every
    snapshot it returns a result and does not raise, and when [rsi] or [macd]
    is NaN that result is none, every threshold comparison against NaN being
    false. *)
Theorem evaluate_nan_is_none :
  forall (s : MarketSnapshot) (previous : option pyfloat),
    (exists r, evaluate previous s = (Returns r, s)) /\
    (is_nan (rsi s) = true \/ is_nan (macd s) = true ->
     evaluate previous s = (Returns None, s)).
Proof.
  intros s previous. split.
  - rewrite evaluate_run. eexists. reflexivity.
  - apply evaluate_on_nan.
Qed.

Lemma evaluate_nan_is_none_witness :
  evaluate (Some (Fin 9000))
           (mkSnapshot (Fin 3600) (Fin 0) (Fin 0) NaN NaN (Fin 0) (Fin 12000)
                       (Fin 58) 70 [])
  = (Returns None,
     mkSnapshot (Fin 3600) (Fin 0) (Fin 0) NaN NaN (Fin 0) (Fin 12000)
                (Fin 58) 70 []).
Proof.
  apply evaluate_nan_is_none. left. reflexivity.
Defined.

(** ** Scenarios of the specification, section 8 *)

Example scenario_long :
  evaluate (Some (Fin 10000))
           (mkSnapshot (Fin 3600) (Fin 0) (Fin 0) (Fin 65) (Fin (12 # 10))
                       (Fin (-1 # 1000)) (Fin 12000) (Fin 58) 70 [])
  = (Returns (Some "GO LONG"),
     mkSnapshot (Fin 3600) (Fin 0) (Fin 0) (Fin 65) (Fin (12 # 10))
                (Fin (-1 # 1000)) (Fin 12000) (Fin 58) 70 []).
Proof. reflexivity. Qed.

Example scenario_short :
  evaluate (Some (Fin 9000))
           (mkSnapshot (Fin 3400) (Fin 0) (Fin 0) (Fin 35) (Fin (-8 # 10))
                       (Fin (2 # 1000)) (Fin 8000) (Fin 61) 30 [])
  = (Returns (Some "SELL"),
     mkSnapshot (Fin 3400) (Fin 0) (Fin 0) (Fin 35) (Fin (-8 # 10))
                (Fin (2 # 1000)) (Fin 8000) (Fin 61) 30 []).
Proof. reflexivity. Qed.

Example scenario_short_unknown_previous :
  fst (evaluate None
           (mkSnapshot (Fin 3400) (Fin 0) (Fin 0) (Fin 35) (Fin (-8 # 10))
                       (Fin (2 # 1000)) (Fin 8000) (Fin 61) 30 []))
  = Returns None.
Proof. reflexivity. Qed.

(** ** The aggregator and the macro calendar *)

Lemma fetch_macro_events_failure (w : World) (cls msg : string) (s : MarketSnapshot) :
  fetch_macro_events (with_forex_factory (Raises (PyError cls msg)) w) s
  = (Returns tt, set_macro_events [] s).
Proof. reflexivity. Qed.

Lemma fetch_macro_events_success (w : World) (evs : list event) (s : MarketSnapshot) :
  fetch_macro_events (with_forex_factory (Returns evs) w) s
  = (Returns tt, set_macro_events evs s).
Proof. reflexivity. Qed.

Lemma set_macro_events_twice (a b : list event) (s : MarketSnapshot) :
  set_macro_events a (set_macro_events b s) = set_macro_events a s.
Proof. reflexivity. Qed.

(** C6.  When the macro-calendar request fails, [fetch_macro_events] raises
    nothing and stores the empty list, and [gather_data] ends as it would
    have with any successful macro-calendar answer, except that the snapshot's
    [macro_events] is empty: the same error if another adapter failed, and
    otherwise a snapshot equal in every other field. *)
Theorem gather_data_macro_failure :
  forall (w : World) (cls msg : string) (evs : list event),
    (forall s, fetch_macro_events (with_forex_factory (Raises (PyError cls msg)) w) s
               = (Returns tt, set_macro_events [] s)) /\
    gather_data (with_forex_factory (Raises (PyError cls msg)) w)
    = match gather_data (with_forex_factory (Returns evs) w) with
      | Returns snap => Returns (set_macro_events [] snap)
      | Raises e => Raises e
      end.
Proof.
  intros w cls msg evs. split; [reflexivity|].
  destruct w as [eth klines fr oi btc total fg ff].
  cbv beta iota delta
      [gather_data bind fetch_eth_market fetch_rsi_macd fetch_funding_rate
       fetch_open_interest fetch_btc_dominance fetch_fear_greed
       fetch_macro_events try_except lift setattr raise
       with_forex_factory coingecko_eth binance_klines funding
       binance_open_interest coingecko_btc coingecko_global fear_greed_index
       forex_factory].
  destruct eth as [[[price cap] vol]|e]; [|reflexivity].
  destruct klines as [closes|e]; [|reflexivity].
  unfold RSIIndicator, MACD.
  destruct (List.length closes <? 26)%nat; [reflexivity|].
  destruct (iloc_last (RSIIndicator_rsi closes 14)) as [r|e]; [|reflexivity].
  destruct (iloc_last (MACD_macd_diff closes 26 12 9)) as [m|e]; [|reflexivity].
  destruct fr as [f|e]; [|reflexivity].
  destruct oi as [o|e]; [|reflexivity].
  destruct btc as [b|e]; [|reflexivity].
  destruct total as [t|e]; [|reflexivity].
  destruct (Qeq_bool t 0); [reflexivity|].
  destruct fg as [g|e]; reflexivity.
Qed.

(** ** The monitor loop: a failing aggregator *)

Lemma iteration_gather_error (c : Cycle) (st : CycleState) (cls msg : string) :
  gather_data (world c) = Raises (PyError cls msg) ->
  iteration c st = (st, [Print ("Error: " ++ msg)], None).
Proof.
  intro H. unfold iteration, try_body. now rewrite H.
Qed.

Lemma calm_world_gathers :
  exists snap, gather_data calm_world = Returns snap.
Proof. eexists. vm_compute. reflexivity. Qed.

Lemma price_feed_down_raises :
  gather_data price_feed_down
  = Raises (PyError "ConnectionError" "connection refused").
Proof. reflexivity. Qed.

(** C2.  In every iteration in which [gather_data] raises an error, the loop
    catches it at the iteration boundary, prints the one line "Error: ..." and
    nothing else, and leaves the stored open interest and the time of the last
    message as they were.  The error does not end the process: the loop goes
    on as after any iteration, which in continuous mode is the sleep of 300
    units followed by the next iteration from the unchanged state (and in
    single-run mode the return that ends every single run). *)
Theorem gather_error_is_contained :
  forall (run_forever : bool) (c : Cycle) (cs : list Cycle) (st : CycleState)
         (cls msg : string),
    gather_data (world c) = Raises (PyError cls msg) ->
    iteration c st = (st, [Print ("Error: " ++ msg)], None) /\
    main_loop run_forever (c :: cs) st
    = if run_forever
      then let '(rest, st', r) := main_loop true cs st in
           (Print ("Error: " ++ msg) :: Sleep 300 :: rest, st', r)
      else ([Print ("Error: " ++ msg)], st, Returned).
Proof.
  intros run_forever c cs st cls msg H.
  pose proof (iteration_gather_error c st cls msg H) as It.
  split; [exact It|].
  cbn [main_loop]. rewrite It.
  destruct run_forever; cbn [negb]; [|reflexivity].
  destruct (main_loop true cs st) as [[rest st'] r]. reflexivity.
Qed.

Lemma gather_error_is_contained_witness :
  iteration (mkCycle price_feed_down 1700000000 1700000001)
            (mkState (Some (Fin 11000)) 1699999000)
  = (mkState (Some (Fin 11000)) 1699999000,
     [Print "Error: connection refused"], None) /\
  main_loop true [mkCycle price_feed_down 1700000000 1700000001]
            (mkState (Some (Fin 11000)) 1699999000)
  = ([Print "Error: connection refused"; Sleep 300],
     mkState (Some (Fin 11000)) 1699999000, Looping).
Proof.
  exact (gather_error_is_contained true
           (mkCycle price_feed_down 1700000000 1700000001) []
           (mkState (Some (Fin 11000)) 1699999000)
           "ConnectionError" "connection refused" price_feed_down_raises).
Defined.

(** ** The monitor loop: heartbeats *)

Lemma iteration_quiet (c : Cycle) (st : CycleState) :
  quiet c st = true ->
  exists snap,
    gather_data (world c) = Returns snap /\
    iteration c st
    = if Qle_bool 3600 (now1 c - last_message st)
      then (mkState (Some (open_interest snap)) (now2 c), [Print HEARTBEAT], None)
      else (mkState (Some (open_interest snap)) (last_message st), [], None).
Proof.
  unfold quiet, iteration, try_body.
  destruct (gather_data (world c)) as [snap|e]; [|discriminate].
  rewrite evaluate_run.
  intro H. apply negb_true_iff in H. rewrite H.
  exists snap. split; [reflexivity|].
  now destruct (Qle_bool 3600 (now1 c - last_message st)).
Qed.

(** A quiet stretch in which the idle interval is never reached prints
    nothing and keeps the time of the last message. *)
Lemma main_loop_quiet_idle (cs : list Cycle) :
  forall st,
    quiet_span cs st = true ->
    Forall (fun c => now1 c - last_message st < 3600) cs ->
    exists st',
      main_loop true cs st = (idle (List.length cs), st', Looping) /\
      last_message st' = last_message st.
Proof.
  induction cs as [|c cs IH]; intros st Hq Hlt.
  - exists st. split; reflexivity.
  - cbn [quiet_span] in Hq. apply andb_true_iff in Hq. destruct Hq as [Hc Hq].
    inversion Hlt as [|c' cs' Hc1 Hrest]; subst.
    destruct (iteration_quiet c st Hc) as (snap & _ & It).
    assert (E : Qle_bool 3600 (now1 c - last_message st) = false).
    { destruct (Qle_bool 3600 (now1 c - last_message st)) eqn:E; [|reflexivity].
      apply Qle_bool_iff in E. exfalso. lra. }
    rewrite E in It. rewrite It in Hq. cbn [fst] in Hq.
    destruct (IH _ Hq Hrest) as (st' & Run & Lm).
    exists st'. split; [|exact Lm].
    cbn [main_loop]. rewrite It. cbn [negb]. rewrite Run. reflexivity.
Qed.

Lemma quiet_span_app (pre post : list Cycle) :
  forall st,
    quiet_span (pre ++ post) st = true ->
    quiet_span pre st = true /\
    quiet_span post (snd (fst (main_loop true pre st))) = true.
Proof.
  induction pre as [|c pre IH]; intros st H.
  - split; [reflexivity|exact H].
  - cbn [app quiet_span] in H. apply andb_true_iff in H. destruct H as [Hc H].
    destruct (IH _ H) as [H1 H2].
    split.
    + cbn [quiet_span]. now rewrite Hc, H1.
    + cbn [main_loop].
      destruct (iteration_quiet c st Hc) as (snap & _ & It).
      assert (N : snd (iteration c st) = None).
      { rewrite It. now destruct (Qle_bool 3600 (now1 c - last_message st)). }
      destruct (iteration c st) as [[st1 out] o]. cbn [snd] in N. subst o.
      cbn [negb fst] in *.
      destruct (main_loop true pre st1) as [[rest st2] r]. exact H2.
Qed.

Lemma main_loop_app (pre post : list Cycle) :
  forall st out st',
    main_loop true pre st = (out, st', Looping) ->
    main_loop true (pre ++ post) st
    = let '(rest, st'', r) := main_loop true post st' in
      ((out ++ rest)%list, st'', r).
Proof.
  induction pre as [|c pre IH]; intros st out st' H.
  - cbn in H. injection H as <- <-. cbn [app].
    now destruct (main_loop true post st) as [[rest st''] r].
  - cbn [app main_loop] in *.
    destruct (iteration c st) as [[st1 o1] [e|]]; [discriminate|].
    cbn [negb] in *.
    destruct (main_loop true pre st1) as [[rest1 st2] r1] eqn:E.
    injection H as <- <- ->.
    rewrite (IH _ _ _ E).
    destruct (main_loop true post st2) as [[rest st''] r].
    now rewrite <- app_assoc.
Qed.

Lemma heartbeats_idle (n : nat) : heartbeats (idle n) = 0%nat.
Proof. induction n as [|n IH]; [reflexivity|exact IH]. Qed.

Lemma heartbeats_app (a b : list effect) :
  heartbeats (a ++ b) = (heartbeats a + heartbeats b)%nat.
Proof. unfold heartbeats. now rewrite filter_app, length_app. Qed.

(** A span either never reaches the idle interval, counted from [since], or
    has a first iteration that does. *)
Lemma first_reaching (since : Q) (cs : list Cycle) :
  Forall (fun c => now1 c - since < 3600) cs \/
  exists pre c post,
    cs = (pre ++ c :: post)%list /\
    Forall (fun c' => now1 c' - since < 3600) pre /\
    3600 <= now1 c - since.
Proof.
  induction cs as [|c cs IH].
  - left. constructor.
  - destruct (Qlt_le_dec (now1 c - since) 3600) as [Hlt|Hge].
    + destruct IH as [IH|(pre & c' & post & -> & Hpre & Hc')].
      * left. now constructor.
      * right. exists (c :: pre), c', post.
        repeat split; [|assumption]. now constructor.
    + right. exists [], c, cs. repeat split; [constructor|assumption].
Qed.

Lemma within_idle_interval_app (a : Q) (pre post : list Cycle) :
  within_idle_interval a (pre ++ post) ->
  within_idle_interval a pre /\ within_idle_interval a post.
Proof. unfold within_idle_interval. apply Forall_app. Qed.

(** The run of a quiet span whose first iteration to reach the idle interval
    is [c]: silence, the heartbeat, silence. *)
Lemma main_loop_one_heartbeat (a : Q) (pre post : list Cycle) (c : Cycle) :
  forall st,
    quiet_span (pre ++ c :: post) st = true ->
    within_idle_interval a (pre ++ c :: post) ->
    Forall (fun c' => now1 c' - last_message st < 3600) pre ->
    3600 <= now1 c - last_message st ->
    fst (fst (main_loop true (pre ++ c :: post) st))
    = (idle (List.length pre) ++ Print HEARTBEAT :: Sleep 300 :: idle (List.length post))%list.
Proof.
  intros st Hq Hw Hpre Hc.
  destruct (quiet_span_app _ _ _ Hq) as [Hq1 Hq2].
  destruct (main_loop_quiet_idle pre st Hq1 Hpre) as (st1 & Run1 & Lm1).
  rewrite Run1 in Hq2. cbn [fst snd] in Hq2.
  rewrite (main_loop_app _ _ _ _ _ Run1).
  cbn [quiet_span] in Hq2. apply andb_true_iff in Hq2. destruct Hq2 as [Hqc Hqp].
  destruct (iteration_quiet c st1 Hqc) as (snap & _ & It).
  assert (E : Qle_bool 3600 (now1 c - last_message st1) = true).
  { apply Qle_bool_iff. now rewrite Lm1. }
  rewrite E in It. rewrite It in Hqp. cbn [fst] in Hqp.
  apply within_idle_interval_app in Hw. destruct Hw as [_ Hw].
  inversion Hw as [|c0 post0 Hwc Hwp]; subst.
  assert (Hpost : Forall (fun c' => now1 c' -
             last_message (mkState (Some (open_interest snap)) (now2 c)) < 3600) post).
  { cbn [last_message]. revert Hwp. apply Forall_impl. intros c' H. lra. }
  destruct (main_loop_quiet_idle post _ Hqp Hpost) as (st2 & Run2 & _).
  cbn [main_loop]. rewrite It. cbn [negb]. rewrite Run2. reflexivity.
Qed.

(** An iteration in which the engine gives a signal prints it and takes its
    first clock reading as the time of the last message. *)
Lemma iteration_signal (c : Cycle) (st : CycleState) (snap : MarketSnapshot)
      (signal : string) :
  gather_data (world c) = Returns snap ->
  fst (evaluate (last_oi st) snap) = Returns (Some signal) ->
  iteration c st
  = (mkState (Some (open_interest snap)) (now1 c), [Print signal], None).
Proof.
  intros Hg He. unfold iteration, try_body. rewrite Hg.
  rewrite evaluate_run in *. cbn [fst] in He.
  destruct (buy_value snap (last_oi st)).
  - injection He as <-. reflexivity.
  - destruct (sell_value snap (last_oi st)); [|discriminate].
    injection He as <-. reflexivity.
Qed.

(** C5, as the code has it.  The time of the last message is set when a
    signal is printed and when a heartbeat is printed.  An iteration that
    produces no signal prints the heartbeat if and only if at least 3600 units
    have passed between that time and its first clock reading; printing it
    sets the time of the last message to the next clock reading, and otherwise
    nothing is printed and that time stays.  Consequently a span of quiet iterations whose clock
    readings all lie within less than 3600 units of one another prints at most
    one heartbeat: none if the interval is never reached, and otherwise exactly
    one, in the first iteration that reaches it. *)
Theorem heartbeat_throttle :
  (forall (c : Cycle) (st : CycleState) (snap : MarketSnapshot) (signal : string),
      gather_data (world c) = Returns snap ->
      fst (evaluate (last_oi st) snap) = Returns (Some signal) ->
      iteration c st
      = (mkState (Some (open_interest snap)) (now1 c), [Print signal], None)) /\
  (forall (c : Cycle) (st : CycleState),
      quiet c st = true ->
      let '(st', out, exn) := iteration c st in
      exn = None /\
      (out = [Print HEARTBEAT] <-> 3600 <= now1 c - last_message st) /\
      (out = [] <-> now1 c - last_message st < 3600) /\
      last_message st' = (if Qle_bool 3600 (now1 c - last_message st)
                          then now2 c else last_message st)) /\
  (forall (a : Q) (cs : list Cycle) (st : CycleState),
      quiet_span cs st = true ->
      within_idle_interval a cs ->
      let out := fst (fst (main_loop true cs st)) in
      (heartbeats out <= 1)%nat /\
      (Forall (fun c => now1 c - last_message st < 3600) cs ->
       out = idle (List.length cs)) /\
      (forall pre c post,
          cs = (pre ++ c :: post)%list ->
          Forall (fun c' => now1 c' - last_message st < 3600) pre ->
          3600 <= now1 c - last_message st ->
          out = (idle (List.length pre)
                 ++ Print HEARTBEAT :: Sleep 300 :: idle (List.length post))%list)).
Proof.
  split; [exact iteration_signal|].
  split.
  - intros c st Hq.
    destruct (iteration_quiet c st Hq) as (snap & _ & It). rewrite It.
    destruct (Qle_bool 3600 (now1 c - last_message st)) eqn:E.
    + apply Qle_bool_iff in E.
      repeat split; try reflexivity; try discriminate; intros; try assumption.
      exfalso. lra.
    + assert (L : now1 c - last_message st < 3600).
      { apply Qnot_le_lt. intro H. apply Qle_bool_iff in H. congruence. }
      repeat split; try reflexivity; try discriminate; intros; try assumption.
      exfalso. lra.
  - intros a cs st Hq Hw. cbv zeta.
    assert (Idle : Forall (fun c => now1 c - last_message st < 3600) cs ->
                   fst (fst (main_loop true cs st)) = idle (List.length cs)).
    { intro H. destruct (main_loop_quiet_idle cs st Hq H) as (st' & Run & _).
      now rewrite Run. }
    assert (One : forall pre c post,
               cs = (pre ++ c :: post)%list ->
               Forall (fun c' => now1 c' - last_message st < 3600) pre ->
               3600 <= now1 c - last_message st ->
               fst (fst (main_loop true cs st))
               = (idle (List.length pre)
                  ++ Print HEARTBEAT :: Sleep 300 :: idle (List.length post))%list).
    { intros pre c post -> Hpre Hc.
      now apply (main_loop_one_heartbeat a). }
    split; [|split; assumption].
    destruct (first_reaching (last_message st) cs)
      as [H|(pre & c & post & E & Hpre & Hc)].
    + rewrite (Idle H), heartbeats_idle. lia.
    + rewrite (One _ _ _ E Hpre Hc), heartbeats_app, heartbeats_idle.
      change (heartbeats (Print HEARTBEAT :: Sleep 300 :: idle (List.length post)))
        with (S (heartbeats (idle (List.length post)))).
      rewrite heartbeats_idle. lia.
Qed.

Lemma ten_cycles_quiet :
  quiet_span (ten_cycles calm_world 1700000000) (mkState None 0) = true.
Proof. vm_compute. reflexivity. Qed.

Lemma ten_cycles_within :
  within_idle_interval 1700000000 (ten_cycles calm_world 1700000000).
Proof.
  unfold within_idle_interval, ten_cycles. cbn [seq map].
  repeat constructor; cbn [now1 now2 Z.of_nat]; vm_compute;
    try reflexivity; discriminate.
Qed.

Lemma heartbeat_throttle_witness :
  (heartbeats (fst (fst (main_loop true (ten_cycles calm_world 1700000000)
                                   (mkState None 0)))) <= 1)%nat /\
  snd (fst (iteration (mkCycle calm_world 1700000000 1700000001)
                      (mkState None 0))) = [Print HEARTBEAT].
Proof.
  split.
  - exact (proj1 (proj2 (proj2 heartbeat_throttle) 1700000000
                    (ten_cycles calm_world 1700000000) (mkState None 0)
                    ten_cycles_quiet ten_cycles_within)).
  - pose proof (proj1 (proj2 heartbeat_throttle)
                  (mkCycle calm_world 1700000000 1700000001) (mkState None 0)
                  (eq_refl true)) as H.
    destruct (iteration (mkCycle calm_world 1700000000 1700000001)
                        (mkState None 0)) as [[st' out] exn].
    destruct H as (_ & H & _). cbn [snd fst]. apply H.
    cbn [now1 last_message]. vm_compute. discriminate.
Defined.

(** C5 as stated fails at the boundary: exactly 3600 units after the last
    message, which is not more than 3600, a quiet iteration prints the
    heartbeat. *)
Lemma heartbeat_at_exactly_3600 :
  let st := mkState (Some (Fin 12000)) 1700000000 in
  let c := mkCycle calm_world 1700003600 1700003601 in
  quiet c st = true /\
  snd (fst (iteration c st)) = [Print "I'm still checking"] /\
  now1 c - last_message st == 3600 /\
  ~ (3600 < now1 c - last_message st).
Proof.
  cbv zeta. split; [|split; [|split]].
  - vm_compute. reflexivity.
  - vm_compute. reflexivity.
  - reflexivity.
  - cbn [now1 last_message]. intro H. vm_compute in H. discriminate H.
Qed.

(** ** Indicator series *)

Section ListFacts.
Context {A : Type}.

Lemma last_cons_nonempty (x d : A) (l : list A) :
  l <> [] -> last (x :: l) d = last l d.
Proof. destruct l; [congruence|reflexivity]. Qed.

Lemma iloc_last_nonempty (l : list A) (d : A) :
  l <> [] -> iloc_last l = Returns (last l d).
Proof.
  intro H. unfold iloc_last.
  rewrite (app_removelast_last d H) at 1.
  now rewrite rev_unit.
Qed.

Lemma Forall_last (P : A -> Prop) (l : list A) (d : A) :
  l <> [] -> Forall P l -> P (last l d).
Proof.
  induction l as [|x l IH]; intros Hne H; [congruence|].
  inversion H as [|x' l' Hx Hl]; subst.
  destruct l as [|y l]; [exact Hx|].
  rewrite last_cons_nonempty by discriminate.
  apply IH; [discriminate|assumption].
Qed.

Lemma length_nonempty (l : list A) : (0 < List.length l)%nat -> l <> [].
Proof. destruct l; cbn; [lia|discriminate]. Qed.
End ListFacts.

Lemma last_map {A B : Type} (f : A -> B) (l : list A) (d : A) :
  last (map f l) (f d) = f (last l d).
Proof.
  induction l as [|x l IH]; [reflexivity|].
  destruct l as [|y l]; [reflexivity|].
  exact IH.
Qed.

Lemma last_combine {A B : Type} (a : list A) :
  forall (b : list B) (da : A) (db : B),
    List.length a = List.length b ->
    last (combine a b) (da, db) = (last a da, last b db).
Proof.
  induction a as [|x a IH]; intros [|y b] da db H; try discriminate H;
    [reflexivity|].
  injection H as H.
  destruct a as [|x' a], b as [|y' b]; try discriminate H; [reflexivity|].
  exact (IH (y' :: b) da db H).
Qed.

Lemma length_ewm_mean (alpha : Q) (minp : nat) (xs : series) :
  forall w n, List.length (ewm_mean alpha minp w n xs) = List.length xs.
Proof.
  induction xs as [|c r IH]; intros w n; [reflexivity|].
  cbn [ewm_mean List.length]. now rewrite IH.
Qed.

Lemma length_diff_from (xs : list Q) :
  forall prev, List.length (diff_from prev xs) = List.length xs.
Proof.
  induction xs as [|x r IH]; intro prev; [reflexivity|].
  cbn [diff_from List.length]. now rewrite IH.
Qed.

Lemma length_diff (xs : list Q) : List.length (diff xs) = List.length xs.
Proof.
  destruct xs as [|x r]; [reflexivity|].
  cbn [diff List.length]. now rewrite length_diff_from.
Qed.

Lemma length_series_sub (a b : series) :
  List.length (series_sub a b) = Nat.min (List.length a) (List.length b).
Proof. unfold series_sub. now rewrite length_map, length_combine. Qed.

Lemma length_RSIIndicator_rsi (close : list Q) (window : nat) :
  List.length (RSIIndicator_rsi close window) = List.length close.
Proof.
  unfold RSIIndicator_rsi, ewm, up_direction, down_direction.
  rewrite length_map, length_combine, !length_ewm_mean, !length_map, length_diff.
  apply Nat.min_id.
Qed.

Lemma length_MACD_macd_diff (close : list Q) (slow fast sign : nat) :
  List.length (MACD_macd_diff close slow fast sign) = List.length close.
Proof.
  unfold MACD_macd_diff, ema, ewm.
  rewrite length_map, !length_series_sub, !length_ewm_mean,
    !length_series_sub, !length_ewm_mean, length_map.
  lia.
Qed.

(** ** C4 *)

Lemma calculator_accepts (close : list Q) :
  (26 <= List.length close)%nat ->
  RSIIndicator close 14 = Returns (RSIIndicator_rsi close 14) /\
  MACD close 26 12 9 = Returns (MACD_macd_diff close 26 12 9).
Proof.
  intro H. unfold RSIIndicator, MACD.
  assert (E : (List.length close <? 26)%nat = false) by (apply Nat.ltb_ge; lia).
  now rewrite E.
Qed.

Lemma calculator_refuses (close : list Q) :
  (List.length close < 26)%nat ->
  RSIIndicator close 14 = Raises InsufficientData /\
  MACD close 26 12 9 = Raises InsufficientData.
Proof.
  intro H. unfold RSIIndicator, MACD.
  assert (E : (List.length close <? 26)%nat = true) by (apply Nat.ltb_lt; lia).
  now rewrite E.
Qed.

Lemma fetch_rsi_macd_refused (w : World) (closes : list Q) (s : MarketSnapshot) :
  binance_klines w = Returns closes ->
  (List.length closes < 26)%nat ->
  fetch_rsi_macd w s = (Raises InsufficientData, s).
Proof.
  intros Hk Hlen. unfold fetch_rsi_macd, bind, lift. rewrite Hk.
  destruct (calculator_refuses closes Hlen) as [-> _]. reflexivity.
Qed.

(** C4.  For every ordered closing-price sequence of fewer than 26 prices
    the indicator step fails with InsufficientData instead of producing
    indicator values: both entries of the calculator raise it, and
    [fetch_rsi_macd] raises it with neither [rsi] nor [macd] stored in the
    snapshot. *)
Theorem short_series_insufficient_data :
  forall (w : World) (closes : list Q) (s : MarketSnapshot),
    binance_klines w = Returns closes ->
    (List.length closes < 26)%nat ->
    exists msg,
      RSIIndicator closes 14 = Raises (PyError "InsufficientData" msg) /\
      MACD closes 26 12 9 = Raises (PyError "InsufficientData" msg) /\
      fetch_rsi_macd w s = (Raises (PyError "InsufficientData" msg), s).
Proof.
  intros w closes s Hk Hlen.
  exists "fewer than 26 closing prices".
  destruct (calculator_refuses closes Hlen) as [R M].
  repeat split; try assumption.
  exact (fetch_rsi_macd_refused w closes s Hk Hlen).
Qed.

Lemma short_series_insufficient_data_witness :
  exists msg,
    RSIIndicator (repeat 3000 20) 14 = Raises (PyError "InsufficientData" msg) /\
    MACD (repeat 3000 20) 26 12 9 = Raises (PyError "InsufficientData" msg) /\
    fetch_rsi_macd (with_binance_klines (Returns (repeat 3000 20)) calm_world)
                   new_snapshot
    = (Raises (PyError "InsufficientData" msg), new_snapshot).
Proof.
  apply (short_series_insufficient_data
           (with_binance_klines (Returns (repeat 3000 20)) calm_world)
           (repeat 3000 20) new_snapshot).
  - reflexivity.
  - cbn. lia.
Defined.

(** ** C8 *)

Section Smoothing.
Variable alpha : Q.
Variable minp : nat.

(** An invariant of the running mean: [J] holds of the mean before a step,
    [P] of every observation, [I] of every mean after a step. *)
Lemma ewm_mean_invariant (J I P : Q -> Prop) :
  (forall y x, J y -> P x -> I ((1 - alpha) * y + alpha * x)) ->
  (forall y, I y -> J y) ->
  forall xs y n,
    J y ->
    Forall (fun c => exists x, c = Some x /\ P x) xs ->
    Forall (fun c => forall v, c = Some v -> I v)
           (ewm_mean alpha minp (Some y) n xs).
Proof.
  intros Step Weaken.
  induction xs as [|c r IH]; intros y n Hy Hxs; [constructor|].
  inversion Hxs as [|c' r' (x & -> & Hx) Hr]; subst.
  cbn [ewm_mean]. constructor.
  - intros v Hv. destruct (minp <=? S n)%nat; [|discriminate].
    injection Hv as <-. now apply Step.
  - apply IH; [|exact Hr]. apply Weaken. now apply Step.
Qed.

(** Once [minp] observations were seen the last cell is a number. *)
Lemma ewm_mean_last_defined :
  forall xs y n,
    xs <> [] ->
    Forall (fun c => exists x : Q, c = Some x) xs ->
    (minp <= n + List.length xs)%nat ->
    exists v, last (ewm_mean alpha minp (Some y) n xs) None = Some v.
Proof.
  induction xs as [|c r IH]; intros y n Hne Hxs Hlen; [congruence|].
  inversion Hxs as [|c' r' (x & ->) Hr]; subst.
  cbn [ewm_mean].
  destruct r as [|c2 r].
  - cbn [ewm_mean last List.length] in *.
    assert (E : (minp <=? S n)%nat = true) by (apply Nat.leb_le; lia).
    rewrite E. eexists. reflexivity.
  - rewrite last_cons_nonempty.
    + apply IH; [discriminate|exact Hr|]. cbn [List.length] in *. lia.
    + apply length_nonempty. rewrite length_ewm_mean. cbn. lia.
Qed.
End Smoothing.

Lemma up_direction_nonneg (d : series) :
  Forall (fun c => exists x, c = Some x /\ 0 <= x) (up_direction d).
Proof.
  unfold up_direction. apply Forall_map. apply Forall_forall.
  intros [v|] _.
  - destruct (Qltb 0 v) eqn:E; eexists; (split; [reflexivity|]).
    + apply Qltb_iff in E. lra.
    + lra.
  - eexists. split; [reflexivity|lra].
Qed.

Lemma down_direction_nonneg (d : series) :
  Forall (fun c => exists x, c = Some x /\ 0 <= x) (down_direction d).
Proof.
  unfold down_direction. apply Forall_map. apply Forall_forall.
  intros [v|] _.
  - destruct (Qltb v 0) eqn:E; eexists; (split; [reflexivity|]).
    + apply Qltb_iff in E. lra.
    + lra.
  - eexists. split; [reflexivity|lra].
Qed.

Lemma diff_from_increasing (xs : list Q) :
  forall prev,
    increasing_from prev xs ->
    Forall (fun c => exists v, c = Some v /\ 0 < v) (diff_from prev xs).
Proof.
  induction xs as [|x r IH]; intros prev H; [constructor|].
  destruct H as [Hx Hr]. cbn [diff_from]. constructor.
  - eexists. split; [reflexivity|lra].
  - now apply IH.
Qed.

Lemma diff_from_decreasing (xs : list Q) :
  forall prev,
    decreasing_from prev xs ->
    Forall (fun c => exists v, c = Some v /\ v < 0) (diff_from prev xs).
Proof.
  induction xs as [|x r IH]; intros prev H; [constructor|].
  destruct H as [Hx Hr]. cbn [diff_from]. constructor.
  - eexists. split; [reflexivity|lra].
  - now apply IH.
Qed.

(** Rising prices have no down-moves, falling prices no up-moves. *)
Lemma down_direction_of_rises (d : series) :
  Forall (fun c => exists v, c = Some v /\ 0 < v) d ->
  Forall (fun c => exists x, c = Some x /\ x == 0) (down_direction d).
Proof.
  intro H. unfold down_direction. apply Forall_map.
  revert H. apply Forall_impl. intros c (v & -> & Hv).
  assert (E : Qltb v 0 = false).
  { destruct (Qltb v 0) eqn:E; [|reflexivity]. apply Qltb_iff in E. lra. }
  rewrite E. eexists. split; [reflexivity|]. reflexivity.
Qed.

Lemma up_direction_of_falls (d : series) :
  Forall (fun c => exists v, c = Some v /\ v < 0) d ->
  Forall (fun c => exists x, c = Some x /\ x == 0) (up_direction d).
Proof.
  intro H. unfold up_direction. apply Forall_map.
  revert H. apply Forall_impl. intros c (v & -> & Hv).
  assert (E : Qltb 0 v = false).
  { destruct (Qltb 0 v) eqn:E; [|reflexivity]. apply Qltb_iff in E. lra. }
  rewrite E. eexists. split; [reflexivity|]. reflexivity.
Qed.

Lemma down_direction_of_falls (d : series) :
  Forall (fun c => exists v, c = Some v /\ v < 0) d ->
  Forall (fun c => exists x, c = Some x /\ 0 < x) (down_direction d).
Proof.
  intro H. unfold down_direction. apply Forall_map.
  revert H. apply Forall_impl. intros c (v & -> & Hv).
  assert (E : Qltb v 0 = true) by now apply Qltb_iff.
  rewrite E. eexists. split; [reflexivity|lra].
Qed.

(** The three readings of one RSI cell. *)
Lemma rsi_cell_range (up dn : Q) :
  0 <= up -> 0 <= dn ->
  exists r, rsi_cell (Some up, Some dn) = Fin r /\ 0 <= r /\ r <= 100.
Proof.
  intros Hu Hd. unfold rsi_cell.
  destruct (Qeq_bool dn 0) eqn:E.
  - exists 100. repeat split; lra.
  - eexists. split; [reflexivity|].
    assert (Hne : ~ dn == 0).
    { intro H. apply Qeq_bool_iff in H. congruence. }
    assert (Hpos : 0 < dn) by lra.
    assert (Hq : 0 <= up / dn).
    { apply Qle_shift_div_l; [exact Hpos|lra]. }
    assert (Ht : 0 < 1 + up / dn) by lra.
    split.
    + assert (100 / (1 + up / dn) <= 100); [|lra].
      apply Qle_shift_div_r; [exact Ht|lra].
    + assert (0 <= 100 / (1 + up / dn)); [|lra].
      apply Qle_shift_div_l; [exact Ht|lra].
Qed.

Lemma rsi_cell_no_down (up dn : Q) :
  dn == 0 -> rsi_cell (Some up, Some dn) = Fin 100.
Proof.
  intro H. unfold rsi_cell.
  apply Qeq_bool_iff in H. now rewrite H.
Qed.

Lemma rsi_cell_no_up (up dn : Q) :
  up == 0 -> 0 < dn ->
  exists r, rsi_cell (Some up, Some dn) = Fin r /\ r == 0.
Proof.
  intros Hu Hd. unfold rsi_cell.
  destruct (Qeq_bool dn 0) eqn:E.
  - apply Qeq_bool_iff in E. lra.
  - eexists. split; [reflexivity|].
    rewrite Hu. field. lra.
Qed.

(** The RSI series after its first price: the first cell is NaN and both
    running means start from zero. *)
Lemma RSIIndicator_rsi_cons (c0 : Q) (rest : list Q) :
  RSIIndicator_rsi (c0 :: rest) 14
  = NaN :: map rsi_cell
             (combine
                (ewm_mean (1 / inject_Z (Z.of_nat 14)) 14 (Some 0) 1
                          (up_direction (diff_from c0 rest)))
                (ewm_mean (1 / inject_Z (Z.of_nat 14)) 14 (Some (- 0)) 1
                          (down_direction (diff_from c0 rest)))).
Proof. reflexivity. Qed.

Lemma RSIIndicator_rsi_last (c0 : Q) (rest : list Q) :
  rest <> [] ->
  iloc_last (RSIIndicator_rsi (c0 :: rest) 14)
  = Returns
      (rsi_cell
         (last (ewm_mean (1 / inject_Z (Z.of_nat 14)) 14 (Some 0) 1
                         (up_direction (diff_from c0 rest))) None,
          last (ewm_mean (1 / inject_Z (Z.of_nat 14)) 14 (Some (- 0)) 1
                         (down_direction (diff_from c0 rest))) None)).
Proof.
  intro Hne.
  rewrite (iloc_last_nonempty _ (rsi_cell (None, None))) by discriminate.
  rewrite RSIIndicator_rsi_cons.
  rewrite last_cons_nonempty.
  - rewrite last_map, last_combine; [reflexivity|].
    unfold up_direction, down_direction.
    now rewrite !length_ewm_mean, !length_map.
  - apply length_nonempty.
    unfold up_direction, down_direction.
    rewrite length_map, length_combine, !length_ewm_mean, !length_map,
      length_diff_from, Nat.min_id.
    destruct rest; [congruence|cbn; lia].
Qed.

Lemma cells_defined (P : Q -> Prop) (xs : series) :
  Forall (fun c => exists x, c = Some x /\ P x) xs ->
  Forall (fun c => exists x : Q, c = Some x) xs.
Proof. apply Forall_impl. intros c (x & -> & _). now exists x. Qed.

Lemma alpha14_bounds :
  0 < 1 / inject_Z (Z.of_nat 14) /\ 1 / inject_Z (Z.of_nat 14) < 1.
Proof. split; reflexivity. Qed.

(** The last mean of the up-moves (or of the down-moves) is defined after 14
    cells and inherits what holds of every observation. *)
Lemma smoothed_last (J I P : Q -> Prop) (y : Q) (xs : series) :
  (forall y x, J y -> P x ->
               I ((1 - 1 / inject_Z (Z.of_nat 14)) * y
                  + 1 / inject_Z (Z.of_nat 14) * x)) ->
  (forall y, I y -> J y) ->
  J y ->
  Forall (fun c => exists x, c = Some x /\ P x) xs ->
  (13 <= List.length xs)%nat ->
  exists v,
    last (ewm_mean (1 / inject_Z (Z.of_nat 14)) 14 (Some y) 1 xs) None = Some v /\
    I v.
Proof.
  intros Step Weaken Hy Hxs Hlen.
  assert (Hne : xs <> []) by (apply length_nonempty; lia).
  destruct (ewm_mean_last_defined (1 / inject_Z (Z.of_nat 14)) 14 xs y 1 Hne
              (cells_defined P xs Hxs)) as [v Hv]; [lia|].
  exists v. split; [exact Hv|].
  pose proof (ewm_mean_invariant (1 / inject_Z (Z.of_nat 14)) 14 J I P
                Step Weaken xs y 1%nat Hy Hxs) as F.
  assert (Hne' : ewm_mean (1 / inject_Z (Z.of_nat 14)) 14 (Some y) 1 xs <> []).
  { apply length_nonempty. rewrite length_ewm_mean. lia. }
  exact (Forall_last _ _ None Hne' F v Hv).
Qed.

Lemma step_nonneg (a y x : Q) :
  0 < a -> a < 1 -> 0 <= y -> 0 <= x -> 0 <= (1 - a) * y + a * x.
Proof.
  intros Ha0 Ha1 Hy Hx.
  assert (0 <= (1 - a) * y) by (apply Qmult_le_0_compat; lra).
  assert (0 <= a * x) by (apply Qmult_le_0_compat; lra).
  lra.
Qed.

Lemma step_zero (a y x : Q) :
  y == 0 -> x == 0 -> (1 - a) * y + a * x == 0.
Proof. intros -> ->. ring. Qed.

Lemma step_pos (a y x : Q) :
  0 < a -> a < 1 -> 0 <= y -> 0 < x -> 0 < (1 - a) * y + a * x.
Proof.
  intros Ha0 Ha1 Hy Hx.
  assert (0 <= (1 - a) * y) by (apply Qmult_le_0_compat; lra).
  assert (0 < a * x) by (apply Qmult_lt_0_compat; lra).
  lra.
Qed.

(** C8.  For every closing-price sequence of at least 26 prices the RSI(14)
    at the last position is a number between 0 and 100, and it is what
    [fetch_rsi_macd] stores in the snapshot; for a strictly increasing
    sequence it equals 100 and for a strictly decreasing one it equals 0. *)
Theorem rsi_last_in_range :
  forall closes : list Q,
    (26 <= List.length closes)%nat ->
    exists r : Q,
      iloc_last (RSIIndicator_rsi closes 14) = Returns (Fin r) /\
      (forall w s, binance_klines w = Returns closes ->
                   rsi (snd (fetch_rsi_macd w s)) = Fin r) /\
      0 <= r /\ r <= 100 /\
      (strictly_increasing closes -> r == 100) /\
      (strictly_decreasing closes -> r == 0).
Proof.
  intros closes Hlen.
  destruct closes as [|c0 rest]; [cbn in Hlen; lia|].
  cbn [List.length] in Hlen.
  assert (Hne : rest <> []) by (apply length_nonempty; lia).
  pose proof (RSIIndicator_rsi_last c0 rest Hne) as Last.
  pose proof alpha14_bounds as [A0 A1].
  assert (L13 : forall f : series -> series,
             (forall d, List.length (f d) = List.length d) ->
             (13 <= List.length (f (diff_from c0 rest)))%nat).
  { intros f Hf. rewrite Hf, length_diff_from. lia. }
  assert (Lup : (13 <= List.length (up_direction (diff_from c0 rest)))%nat).
  { apply (L13 up_direction). intro d. apply length_map. }
  assert (Ldn : (13 <= List.length (down_direction (diff_from c0 rest)))%nat).
  { apply (L13 down_direction). intro d. apply length_map. }
  destruct (smoothed_last (fun y => 0 <= y) (fun y => 0 <= y) (fun x => 0 <= x)
              0 (up_direction (diff_from c0 rest)))
    as (up & Eup & Hup); auto using step_nonneg, up_direction_nonneg; [lra|].
  destruct (smoothed_last (fun y => 0 <= y) (fun y => 0 <= y) (fun x => 0 <= x)
              (- 0) (down_direction (diff_from c0 rest)))
    as (dn & Edn & Hdn); auto using step_nonneg, down_direction_nonneg; [lra|].
  rewrite Eup, Edn in Last.
  destruct (rsi_cell_range up dn Hup Hdn) as (r & Er & Hr0 & Hr100).
  rewrite Er in Last.
  exists r. split; [exact Last|]. split; [|split; [exact Hr0|split; [exact Hr100|]]].
  - intros w s Hk.
    unfold fetch_rsi_macd, bind, lift, setattr. rewrite Hk.
    destruct (calculator_accepts (c0 :: rest)) as [-> ->]; [cbn; lia|].
    rewrite Last.
    assert (Mne : MACD_macd_diff (c0 :: rest) 26 12 9 <> []).
    { apply length_nonempty. rewrite length_MACD_macd_diff. cbn. lia. }
    rewrite (iloc_last_nonempty _ NaN Mne). reflexivity.
  - split.
    + intro Hinc. cbn [strictly_increasing] in Hinc.
      destruct (smoothed_last (fun y => y == 0) (fun y => y == 0) (fun x => x == 0)
                  (- 0) (down_direction (diff_from c0 rest)))
        as (dn' & Edn' & Hdn'); auto using step_zero.
      * reflexivity.
      * apply down_direction_of_rises. now apply diff_from_increasing.
      * rewrite Edn in Edn'. injection Edn' as <-.
        rewrite (rsi_cell_no_down up dn Hdn') in Er.
        injection Er as <-. reflexivity.
    + intro Hdec. cbn [strictly_decreasing] in Hdec.
      pose proof (diff_from_decreasing rest c0 Hdec) as Falls.
      destruct (smoothed_last (fun y => y == 0) (fun y => y == 0) (fun x => x == 0)
                  0 (up_direction (diff_from c0 rest)))
        as (up' & Eup' & Hup'); auto using step_zero.
      * reflexivity.
      * now apply up_direction_of_falls.
      * destruct (smoothed_last (fun y => 0 <= y) (fun y => 0 < y) (fun x => 0 < x)
                    (- 0) (down_direction (diff_from c0 rest)))
          as (dn' & Edn' & Hdn'); auto using step_pos.
        -- intros y Hy. lra.
        -- lra.
        -- now apply down_direction_of_falls.
        -- rewrite Eup in Eup'. injection Eup' as <-.
           rewrite Edn in Edn'. injection Edn' as <-.
           destruct (rsi_cell_no_up up dn Hup' Hdn') as (r' & Er' & Hr').
           rewrite Er in Er'. injection Er' as <-. exact Hr'.
Qed.

Lemma rsi_last_in_range_witness :
  exists r : Q,
    iloc_last (RSIIndicator_rsi rising_closes 14) = Returns (Fin r) /\
    (forall w s, binance_klines w = Returns rising_closes ->
                 rsi (snd (fetch_rsi_macd w s)) = Fin r) /\
    0 <= r /\ r <= 100 /\
    (strictly_increasing rising_closes -> r == 100) /\
    (strictly_decreasing rising_closes -> r == 0).
Proof.
  apply (rsi_last_in_range rising_closes).
  cbn. lia.
Defined.

Example rsi_of_rising_closes :
  iloc_last (RSIIndicator_rsi rising_closes 14) = Returns (Fin 100).
Proof. vm_compute. reflexivity. Qed.

(** * Further properties of the code *)

(** ** The aggregator *)

Ltac run_gather :=
  cbv beta iota delta
      [gather_data bind fetch_eth_market fetch_rsi_macd fetch_funding_rate
       fetch_open_interest fetch_btc_dominance fetch_fear_greed
       fetch_macro_events try_except lift setattr raise
       coingecko_eth binance_klines funding
       binance_open_interest coingecko_btc coingecko_global fear_greed_index
       forex_factory].

Lemma RSIIndicator_rsi_nonempty (closes : list Q) :
  closes <> [] -> RSIIndicator_rsi closes 14 <> [].
Proof.
  intro H. apply length_nonempty. rewrite length_RSIIndicator_rsi.
  destruct closes; [congruence|cbn; lia].
Qed.

Lemma MACD_macd_diff_nonempty (closes : list Q) :
  closes <> [] -> MACD_macd_diff closes 26 12 9 <> [].
Proof.
  intro H. apply length_nonempty. rewrite length_MACD_macd_diff.
  destruct closes; [congruence|cbn; lia].
Qed.

Lemma enough_closes_nonempty (closes : list Q) :
  (26 <= List.length closes)%nat -> closes <> [].
Proof. intro H. apply length_nonempty. lia. Qed.

Lemma Qeq_bool_false (t : Q) : ~ t == 0 <-> Qeq_bool t 0 = false.
Proof.
  split.
  - intro H. destruct (Qeq_bool t 0) eqn:E; [|reflexivity].
    apply Qeq_bool_iff in E. contradiction.
  - intros H E. apply Qeq_bool_iff in E. congruence.
Qed.

(** X1.  [gather_data] returns a snapshot exactly when the price, candle,
    funding, open-interest, both market-capitalisation and sentiment requests
    answered, there are at least 26 candles, the total capitalisation is not
    zero and the macro-calendar request was not interrupted; the snapshot then
    holds what those sources gave, the last RSI and MACD cells, the dominance
    the dominance adapter stores for the two capitalisations, and the macro
    events received or none if that request failed. *)
Theorem gather_data_returns_iff :
  forall (w : World) (snap : MarketSnapshot),
    gather_data w = Returns snap <->
    exists price cap vol closes fr oi btc total fg dom,
      coingecko_eth w = Returns (price, cap, vol) /\
      binance_klines w = Returns closes /\ (26 <= List.length closes)%nat /\
      funding w = Returns fr /\
      binance_open_interest w = Returns oi /\
      coingecko_btc w = Returns btc /\
      coingecko_global w = Returns total /\ ~ total == 0 /\
      fetch_btc_dominance w new_snapshot
      = (Returns tt, set_btc_dominance dom new_snapshot) /\
      fear_greed_index w = Returns fg /\
      forex_factory w <> Raises PyInterrupt /\
      snap = mkSnapshot price cap vol
               (last (RSIIndicator_rsi closes 14) NaN)
               (last (MACD_macd_diff closes 26 12 9) NaN)
               fr oi dom fg
               match forex_factory w with Returns evs => evs | Raises _ => [] end.
Proof.
  intros w snap. destruct w as [eth klines fr oi btc total fg ff].
  run_gather. split.
  - destruct eth as [[[price cap] vol]|e]; [|discriminate].
    destruct klines as [closes|e]; [|discriminate].
    unfold RSIIndicator, MACD.
    destruct (List.length closes <? 26)%nat eqn:El; [discriminate|].
    apply Nat.ltb_ge in El.
    pose proof (enough_closes_nonempty closes El) as Hne.
    rewrite (iloc_last_nonempty _ NaN (RSIIndicator_rsi_nonempty closes Hne)).
    rewrite (iloc_last_nonempty _ NaN (MACD_macd_diff_nonempty closes Hne)).
    destruct fr as [f|e]; [|discriminate].
    destruct oi as [o|e]; [|discriminate].
    destruct btc as [b|e]; [|discriminate].
    destruct total as [t|e]; [|discriminate].
    destruct (Qeq_bool t 0) eqn:Et; [discriminate|].
    destruct fg as [g|e]; [|discriminate].
    destruct ff as [evs|[cls msg|]]; intro H; try discriminate H;
      injection H as <-;
      exists price, cap, vol, closes, f, o, b, t, g, (Fin (b / t * 100));
      repeat split; try assumption; try discriminate;
      now apply Qeq_bool_false.
  - intros (price & cap & vol & closes & f & o & b & t & g & dom &
            -> & -> & Hlen & -> & -> & -> & -> & Ht & Hdom & -> & Hff & ->).
    unfold RSIIndicator, MACD.
    assert (El : (List.length closes <? 26)%nat = false)
      by (apply Nat.ltb_ge; lia).
    rewrite El.
    pose proof (enough_closes_nonempty closes Hlen) as Hne.
    rewrite (iloc_last_nonempty _ NaN (RSIIndicator_rsi_nonempty closes Hne)).
    rewrite (iloc_last_nonempty _ NaN (MACD_macd_diff_nonempty closes Hne)).
    apply Qeq_bool_false in Ht. rewrite Ht in *.
    injection Hdom as <-.
    destruct ff as [evs|[cls msg|]]; [reflexivity|reflexivity|congruence].
Qed.

(** X2.  [gather_data] stops at the first adapter that raises and raises that
    exception, in the order price, candles, funding, open interest, dominance,
    sentiment; what the later sources would have answered plays no part. *)
Theorem gather_data_fail_fast :
  forall (w : World) (e : pyexn),
    (coingecko_eth w = Raises e -> gather_data w = Raises e) /\
    (forall d, coingecko_eth w = Returns d ->
       (binance_klines w = Raises e -> gather_data w = Raises e) /\
       (forall closes, binance_klines w = Returns closes ->
          (26 <= List.length closes)%nat ->
          (funding w = Raises e -> gather_data w = Raises e) /\
          (forall fr, funding w = Returns fr ->
             (binance_open_interest w = Raises e -> gather_data w = Raises e) /\
             (forall oi, binance_open_interest w = Returns oi ->
                (coingecko_btc w = Raises e -> gather_data w = Raises e) /\
                (forall btc, coingecko_btc w = Returns btc ->
                   (coingecko_global w = Raises e -> gather_data w = Raises e) /\
                   (forall total, coingecko_global w = Returns total ->
                      ~ total == 0 ->
                      (fear_greed_index w = Raises e ->
                       gather_data w = Raises e))))))).
Proof.
  intros w e. destruct w as [eth klines fr oi btc total fg ff].
  run_gather.
  split; [intros ->; reflexivity|].
  intros [[price cap] vol] ->.
  split; [intros ->; reflexivity|].
  intros closes -> Hlen.
  unfold RSIIndicator, MACD.
  assert (El : (List.length closes <? 26)%nat = false)
    by (apply Nat.ltb_ge; lia).
  rewrite El.
  pose proof (enough_closes_nonempty closes Hlen) as Hne.
  rewrite (iloc_last_nonempty _ NaN (RSIIndicator_rsi_nonempty closes Hne)).
  rewrite (iloc_last_nonempty _ NaN (MACD_macd_diff_nonempty closes Hne)).
  split; [intros ->; reflexivity|].
  intros f ->.
  split; [intros ->; reflexivity|].
  intros o ->.
  split; [intros ->; reflexivity|].
  intros b ->.
  split; [intros ->; reflexivity|].
  intros t -> Ht.
  apply Qeq_bool_false in Ht. rewrite Ht.
  intros ->. reflexivity.
Qed.

Lemma gather_data_fail_fast_witness :
  gather_data price_feed_down
  = Raises (PyError "ConnectionError" "connection refused") /\
  gather_data sentiment_feed_down
  = Raises (PyError "Timeout" "read timed out").
Proof.
  split.
  - apply (proj1 (gather_data_fail_fast price_feed_down
                    (PyError "ConnectionError" "connection refused"))).
    reflexivity.
  - pose proof (proj2 (gather_data_fail_fast sentiment_feed_down
                         (PyError "Timeout" "read timed out"))
                  _ eq_refl) as [_ H1].
    pose proof (H1 (repeat 3000 40) eq_refl) as H2.
    destruct H2 as [_ H2]; [cbn; lia|].
    destruct (H2 _ eq_refl) as [_ H3].
    destruct (H3 _ eq_refl) as [_ H4].
    destruct (H4 _ eq_refl) as [_ H5].
    apply (H5 _ eq_refl); [discriminate|reflexivity].
Defined.

(** X3.  The dominance adapter divides the bitcoin capitalisation by the
    total one: a total of zero raises ZeroDivisionError and stores nothing,
    and a positive total with a bitcoin capitalisation between zero and that
    total stores a dominance between 0 and 100. *)
Theorem fetch_btc_dominance_range :
  forall (w : World) (btc total : Q) (s : MarketSnapshot),
    coingecko_btc w = Returns btc ->
    coingecko_global w = Returns total ->
    (total == 0 ->
     exists msg,
       fetch_btc_dominance w s = (Raises (PyError "ZeroDivisionError" msg), s)) /\
    (0 < total -> 0 <= btc -> btc <= total ->
     exists d,
       fetch_btc_dominance w s = (Returns tt, set_btc_dominance (Fin d) s) /\
       0 <= d /\ d <= 100).
Proof.
  intros w btc total s Hb Ht.
  unfold fetch_btc_dominance, bind, lift, raise, setattr. rewrite Hb, Ht.
  split.
  - intro Hz. apply Qeq_bool_iff in Hz. rewrite Hz. eexists. reflexivity.
  - intros Hpos H0 Hle.
    assert (Et : Qeq_bool total 0 = false).
    { destruct (Qeq_bool total 0) eqn:E; [|reflexivity].
      apply Qeq_bool_iff in E. lra. }
    rewrite Et. eexists. split; [reflexivity|].
    assert (Hq0 : 0 <= btc / total).
    { apply Qle_shift_div_l; [exact Hpos|lra]. }
    assert (Hq1 : btc / total <= 1).
    { apply Qle_shift_div_r; [exact Hpos|lra]. }
    split; lra.
Qed.

Lemma fetch_btc_dominance_range_witness :
  exists d,
    fetch_btc_dominance calm_world new_snapshot
    = (Returns tt, set_btc_dominance (Fin d) new_snapshot) /\
    0 <= d /\ d <= 100.
Proof.
  apply (proj2 (fetch_btc_dominance_range calm_world 1200000000000 2100000000000
                  new_snapshot eq_refl eq_refl)).
  - reflexivity.
  - discriminate.
  - discriminate.
Defined.

(** ** The decision engine *)

Lemma Qltb_irrefl_eq (x y : Q) : x == y -> Qltb x y = false /\ Qltb y x = false.
Proof.
  intro H. split.
  - destruct (Qltb x y) eqn:E; [|reflexivity]. apply Qltb_iff in E. lra.
  - destruct (Qltb y x) eqn:E; [|reflexivity]. apply Qltb_iff in E. lra.
Qed.

Lemma Feq_not_lt (a b : pyfloat) : Feq a b -> flt a b = false /\ flt b a = false.
Proof.
  intro H. destruct H; cbn; try (split; reflexivity).
  now apply Qltb_irrefl_eq.
Qed.

Lemma Fle_not_gt (a b : pyfloat) : Fle a b -> flt b a = false.
Proof.
  intros [H|H].
  - destruct H; cbn; try reflexivity.
    destruct (Qltb y x) eqn:E; [|reflexivity]. apply Qltb_iff in E. lra.
  - now apply Feq_not_lt.
Qed.

Lemma buy_sell_false (s : MarketSnapshot) (previous : option pyfloat) :
  buy_value s previous = false ->
  sell_value s previous = false ->
  evaluate previous s = (Returns None, s).
Proof. intros B S. rewrite evaluate_run. now rewrite B, S. Qed.

(** The funding rate is the one input without a gap between the two rule
    sets: a rate of exactly 0 is admitted by the LONG rule ([<= 0]). *)
Example funding_zero_goes_long :
  fst (evaluate (Some (Fin 10000))
         (mkSnapshot (Fin 3600) (Fin 0) (Fin 0) (Fin 65) (Fin (12 # 10))
                     (Fin 0) (Fin 12000) (Fin 58) 70 []))
  = Returns (Some "GO LONG").
Proof. reflexivity. Qed.

(** X4.  Six of the seven inputs have a dead zone between the two rule sets:
    a price equal to 3550, a dominance equal to 59.5, a MACD differential
    equal to 0, an RSI from 40 to 60, a sentiment index from 40 to 60, or an
    open interest equal to the previous one each suffice for [evaluate] to
    return none, whatever the other fields hold. *)
Theorem evaluate_dead_zone :
  forall (s : MarketSnapshot) (previous : option pyfloat),
    Feq (eth_price s) (Fin 3550) \/
    Feq (btc_dominance s) (Fin (119 # 2)) \/
    Feq (macd s) (Fin 0) \/
    (Fle (Fin 40) (rsi s) /\ Fle (rsi s) (Fin 60)) \/
    (40 <= fear_greed s <= 60)%Z \/
    (exists prev, previous = Some prev /\ Feq (open_interest s) prev) ->
    evaluate previous s = (Returns None, s).
Proof.
  intros s previous H.
  apply buy_sell_false; unfold buy_value, sell_value, fgt.
  - destruct H as [H|[H|[H|[[H1 H2]|[H|(prev & -> & H)]]]]].
    + apply Feq_not_lt in H. destruct H as [_ H]. rewrite H.
      now rewrite !andb_false_r.
    + apply Feq_not_lt in H. destruct H as [H _]. rewrite H.
      now rewrite !andb_false_r.
    + apply Feq_not_lt in H. destruct H as [_ H]. rewrite H.
      now rewrite !andb_false_r.
    + apply Fle_not_gt in H2. now rewrite H2.
    + assert (E : (60 <? fear_greed s)%Z = false) by (apply Z.ltb_ge; lia).
      rewrite E. now rewrite !andb_false_r.
    + apply Feq_not_lt in H. destruct H as [_ H]. rewrite H.
      now rewrite !andb_false_r.
  - destruct H as [H|[H|[H|[[H1 H2]|[H|(prev & -> & H)]]]]].
    + apply Feq_not_lt in H. destruct H as [H _]. rewrite H.
      now rewrite !andb_false_r.
    + apply Feq_not_lt in H. destruct H as [_ H]. rewrite H.
      now rewrite !andb_false_r.
    + apply Feq_not_lt in H. destruct H as [H _]. rewrite H.
      now rewrite !andb_false_r.
    + apply Fle_not_gt in H1. now rewrite H1.
    + assert (E : (fear_greed s <? 40)%Z = false) by (apply Z.ltb_ge; lia).
      rewrite E. now rewrite !andb_false_r.
    + apply Feq_not_lt in H. destruct H as [H _]. rewrite H.
      now rewrite !andb_false_r.
Qed.

Lemma evaluate_dead_zone_witness :
  evaluate (Some (Fin 10000))
           (mkSnapshot (Fin 3550) (Fin 0) (Fin 0) (Fin 65) (Fin (12 # 10))
                       (Fin (-1 # 1000)) (Fin 12000) (Fin 58) 70 [])
  = (Returns None,
     mkSnapshot (Fin 3550) (Fin 0) (Fin 0) (Fin 65) (Fin (12 # 10))
                (Fin (-1 # 1000)) (Fin 12000) (Fin 58) 70 []).
Proof.
  apply evaluate_dead_zone. left. constructor. reflexivity.
Defined.

(** X5.  The market capitalisation, the volume and the macro events of a
    snapshot have no influence on the decision: replacing all three leaves
    the result of [evaluate] as it was. *)
Theorem evaluate_ignores_unused_fields :
  forall (s : MarketSnapshot) (previous : option pyfloat)
         (cap vol : pyfloat) (evs : list event),
    fst (evaluate previous
           (set_market_cap cap (set_volume vol (set_macro_events evs s))))
    = fst (evaluate previous s).
Proof.
  intros s previous cap vol evs. rewrite !evaluate_run. reflexivity.
Qed.

(** ** The monitor loop *)

Lemma buy_value_unknown (s : MarketSnapshot) : buy_value s None = false.
Proof. unfold buy_value. now rewrite andb_false_r. Qed.

Lemma sell_value_unknown (s : MarketSnapshot) : sell_value s None = false.
Proof. unfold sell_value. now rewrite andb_false_r. Qed.

(** What an iteration that gathered a snapshot does, by the values of [buy]
    and [sell]. *)
Lemma iteration_gathered (c : Cycle) (st : CycleState) (snap : MarketSnapshot) :
  gather_data (world c) = Returns snap ->
  iteration c st
  = if buy_value snap (last_oi st)
    then (mkState (Some (open_interest snap)) (now1 c), [Print "GO LONG"], None)
    else if sell_value snap (last_oi st)
    then (mkState (Some (open_interest snap)) (now1 c), [Print "SELL"], None)
    else if Qle_bool 3600 (now1 c - last_message st)
    then (mkState (Some (open_interest snap)) (now2 c),
          [Print "I'm still checking"], None)
    else (mkState (Some (open_interest snap)) (last_message st), [], None).
Proof.
  intro H. unfold iteration, try_body. rewrite H, evaluate_run.
  destruct (buy_value snap (last_oi st)); [reflexivity|].
  destruct (sell_value snap (last_oi st)); [reflexivity|].
  cbn [truthy negb].
  now destruct (Qle_bool 3600 (now1 c - last_message st)).
Qed.

Lemma iteration_interrupted (c : Cycle) (st : CycleState) :
  gather_data (world c) = Raises PyInterrupt ->
  iteration c st = (st, [], Some PyInterrupt).
Proof. intro H. unfold iteration, try_body. now rewrite H. Qed.

(** An iteration prints at most one line and does nothing else to the
    outside; the only exception that leaves it is an interrupt. *)
Lemma iteration_shape (c : Cycle) (st : CycleState) :
  exists st' out exn,
    iteration c st = (st', out, exn) /\
    (List.length out <= 1)%nat /\
    Forall is_print out /\
    (exn = None \/ exn = Some PyInterrupt).
Proof.
  destruct (gather_data (world c)) as [snap|[cls msg|]] eqn:G.
  - rewrite (iteration_gathered c st snap G).
    destruct (buy_value snap (last_oi st));
      [|destruct (sell_value snap (last_oi st));
        [|destruct (Qle_bool 3600 (now1 c - last_message st))]];
      do 3 eexists; (split; [reflexivity|]);
      cbn; repeat split; auto; repeat constructor.
  - rewrite (iteration_gather_error c st cls msg G).
    do 3 eexists. split; [reflexivity|].
    cbn. repeat split; auto. repeat constructor.
  - rewrite (iteration_interrupted c st G).
    do 3 eexists. split; [reflexivity|].
    cbn. repeat split; auto.
Qed.

Lemma sleeps_app (a b : list effect) : sleeps (a ++ b) = (sleeps a ++ sleeps b)%list.
Proof. unfold sleeps. apply flat_map_app. Qed.

Lemma prints_app (a b : list effect) : prints (a ++ b) = (prints a ++ prints b)%list.
Proof. unfold prints. apply flat_map_app. Qed.

Lemma sleeps_of_prints (out : list effect) : Forall is_print out -> sleeps out = [].
Proof.
  induction 1 as [|e out He _ IH]; [reflexivity|].
  destruct e; [exact IH|contradiction].
Qed.

Lemma prints_length (out : list effect) :
  (List.length (prints out) <= List.length out)%nat.
Proof.
  unfold prints.
  induction out as [|e out IH]; [cbn; lia|].
  cbn [flat_map]. rewrite length_app. destruct e; cbn [List.length]; lia.
Qed.

(** X6.  In single-run mode the loop makes exactly one iteration, whatever
    would follow: it never sleeps, it prints at most one line, that line is
    never a signal because no previous open interest is known yet, and the
    loop is left. *)
Theorem single_run_never_signals :
  forall (c : Cycle) (cs : list Cycle),
    main false (c :: cs) = main false [c] /\
    sleeps (fst (fst (main false (c :: cs)))) = [] /\
    (List.length (fst (fst (main false (c :: cs)))) <= 1)%nat /\
    ~ In (Print "GO LONG") (fst (fst (main false (c :: cs)))) /\
    ~ In (Print "SELL") (fst (fst (main false (c :: cs)))) /\
    snd (main false (c :: cs)) <> Looping.
Proof.
  intros c cs. unfold main. cbn [main_loop negb].
  split.
  - now destruct (iteration c (mkState None 0)) as [[st' out] [e|]].
  - destruct (gather_data (world c)) as [snap|[cls msg|]] eqn:G.
    + rewrite (iteration_gathered c _ snap G). cbn [last_oi last_message].
      rewrite buy_value_unknown, sell_value_unknown.
      destruct (Qle_bool 3600 (now1 c - 0)); cbn;
        repeat split; try lia; try discriminate; try tauto;
        intros [H|[]]; discriminate H.
    + rewrite (iteration_gather_error c _ cls msg G). cbn.
      repeat split; try lia; try discriminate;
        intros [H|[]]; discriminate H.
    + rewrite (iteration_interrupted c _ G). cbn.
      repeat split; try lia; try discriminate; tauto.
Qed.

Lemma main_loop_interrupted (run_forever : bool) (c : Cycle) (cs : list Cycle)
      (st : CycleState) :
  gather_data (world c) = Raises PyInterrupt ->
  main_loop run_forever (c :: cs) st = ([], st, Uncaught PyInterrupt).
Proof.
  intro H. cbn [main_loop]. now rewrite (iteration_interrupted c st H).
Qed.

(** X7.  No error ever leaves the loop: whatever the sources do, an observed
    run is still looping, or was left through [break] in single-run mode, or
    was ended by an interrupt (KeyboardInterrupt, SystemExit), which
    [except Exception] lets through; continuous mode is never left through
    [break].  An interrupt during the aggregation ends the loop in either
    mode with nothing printed for that iteration, no sleep, and the state
    unchanged. *)
Theorem main_loop_only_interrupt_escapes :
  forall (run_forever : bool) (cs : list Cycle) (st : CycleState),
    match snd (main_loop run_forever cs st) with
    | Looping => run_forever = true \/ cs = []
    | Returned => run_forever = false
    | Uncaught e => e = PyInterrupt
    end /\
    (forall c cs', cs = c :: cs' ->
       gather_data (world c) = Raises PyInterrupt ->
       main_loop run_forever cs st = ([], st, Uncaught PyInterrupt)).
Proof.
  intros run_forever cs st. split.
  - revert st. induction cs as [|c cs IH]; intro st; [cbn; auto|].
    cbn [main_loop].
    destruct (iteration_shape c st) as (st' & out & exn & It & _ & _ & Hexn).
    rewrite It. destruct Hexn as [-> | ->]; [|reflexivity].
    destruct run_forever; cbn [negb]; [|reflexivity].
    specialize (IH st').
    destruct (main_loop true cs st') as [[rest st''] r]. cbn [snd] in *.
    destruct r; auto.
  - intros c cs' -> H. now apply main_loop_interrupted.
Qed.

(** X8.  In continuous mode every completed iteration is followed by one
    sleep of 300 units and prints at most one line: a run observed over [n]
    iterations that no interrupt ended shows exactly [n] sleeps, each of 300,
    and at most [n] printed lines. *)
Theorem continuous_run_sleeps :
  forall (cs : list Cycle) (st : CycleState),
    snd (main_loop true cs st) = Looping ->
    sleeps (fst (fst (main_loop true cs st))) = repeat 300 (List.length cs) /\
    (List.length (prints (fst (fst (main_loop true cs st)))) <= List.length cs)%nat.
Proof.
  induction cs as [|c cs IH]; intros st H; [cbn; auto|].
  cbn [main_loop] in *.
  destruct (iteration_shape c st) as (st' & out & exn & It & Hlen & Hpr & Hexn).
  rewrite It in *.
  destruct Hexn as [-> | ->]; [|discriminate H].
  cbn [negb] in *. specialize (IH st').
  destruct (main_loop true cs st') as [[rest st''] r]. cbn [fst snd] in *.
  destruct (IH H) as [IH1 IH2].
  rewrite sleeps_app, prints_app, (sleeps_of_prints out Hpr), length_app.
  cbn [app sleeps prints flat_map List.length repeat].
  fold (sleeps rest). fold (prints rest). rewrite IH1.
  split; [reflexivity|].
  pose proof (prints_length out). lia.
Qed.

Lemma continuous_run_sleeps_witness :
  sleeps (fst (fst (main_loop true (ten_cycles calm_world 1700000000)
                              (mkState None 0))))
  = repeat 300 (List.length (ten_cycles calm_world 1700000000)) /\
  (List.length (prints (fst (fst (main_loop true (ten_cycles calm_world 1700000000)
                                            (mkState None 0)))))
   <= List.length (ten_cycles calm_world 1700000000))%nat.
Proof.
  apply (continuous_run_sleeps (ten_cycles calm_world 1700000000) (mkState None 0)).
  vm_compute. reflexivity.
Defined.

Lemma main_loop_failing_span (cs : list Cycle) :
  forall st,
    Forall gather_fails cs ->
    main_loop true cs st
    = (flat_map (fun c => [Print (error_line c); Sleep 300]) cs, st, Looping).
Proof.
  induction cs as [|c cs IH]; intros st H; [reflexivity|].
  inversion H as [|c' cs' (cls & msg & G) Hcs]; subst.
  cbn [main_loop flat_map].
  rewrite (iteration_gather_error c st cls msg G). cbn [negb].
  rewrite (IH st Hcs). unfold error_line. rewrite G. reflexivity.
Qed.

(** X9.  An outage of any length is survived unchanged: over a stretch of
    iterations in each of which the aggregator fails, continuous mode prints
    one error line and sleeps 300, once per iteration, and ends the stretch
    with the stored open interest and the time of the last message exactly as
    they were at its start. *)
Theorem outage_leaves_state :
  forall (cs : list Cycle) (st : CycleState),
    Forall gather_fails cs ->
    main_loop true cs st
    = (flat_map (fun c => [Print (error_line c); Sleep 300]) cs, st, Looping).
Proof. exact main_loop_failing_span. Qed.

Lemma outage_leaves_state_witness :
  main_loop true [mkCycle price_feed_down 1700000000 1700000001;
                  mkCycle price_feed_down 1700000300 1700000301]
            (mkState (Some (Fin 11000)) 1699999000)
  = ([Print "Error: connection refused"; Sleep 300;
      Print "Error: connection refused"; Sleep 300],
     mkState (Some (Fin 11000)) 1699999000, Looping).
Proof.
  apply (outage_leaves_state
           [mkCycle price_feed_down 1700000000 1700000001;
            mkCycle price_feed_down 1700000300 1700000301]
           (mkState (Some (Fin 11000)) 1699999000)).
  repeat constructor;
    exists "ConnectionError", "connection refused"; reflexivity.
Defined.

Lemma iteration_gathered_last_oi (c : Cycle) (st : CycleState)
      (snap : MarketSnapshot) :
  gather_data (world c) = Returns snap ->
  last_oi (fst (fst (iteration c st))) = Some (open_interest snap) /\
  snd (iteration c st) = None.
Proof.
  intro G. rewrite (iteration_gathered c st snap G).
  destruct (buy_value snap (last_oi st));
    [|destruct (sell_value snap (last_oi st));
      [|destruct (Qle_bool 3600 (now1 c - last_message st))]];
    split; reflexivity.
Qed.

(** X10.  A signal always compares against the last snapshot that was
    gathered, however long ago: after an iteration that gathered [s1],
    followed by any number of failing iterations, the next successful
    iteration prints "GO LONG" exactly when its snapshot satisfies the LONG
    conditions against the open interest of [s1], and "SELL" exactly when it
    satisfies the SHORT conditions against it. *)
Theorem signal_against_last_gathered :
  forall (c1 c2 : Cycle) (outage : list Cycle) (st : CycleState)
         (s1 s2 : MarketSnapshot),
    gather_data (world c1) = Returns s1 ->
    Forall gather_fails outage ->
    gather_data (world c2) = Returns s2 ->
    let st' := snd (fst (main_loop true (c1 :: outage) st)) in
    last_oi st' = Some (open_interest s1) /\
    (snd (fst (iteration c2 st')) = [Print "GO LONG"]
     <-> long_rule s2 (Some (open_interest s1))) /\
    (snd (fst (iteration c2 st')) = [Print "SELL"]
     <-> short_rule s2 (Some (open_interest s1))).
Proof.
  intros c1 c2 outage st s1 s2 G1 Hout G2. cbv zeta.
  cbn [main_loop].
  destruct (iteration_gathered_last_oi c1 st s1 G1) as [L1 N1].
  destruct (iteration c1 st) as [[st1 out1] exn1]. cbn [fst snd] in L1, N1.
  subst exn1. cbn [negb].
  rewrite (main_loop_failing_span outage st1 Hout). cbn [fst snd].
  split; [exact L1|].
  rewrite (iteration_gathered c2 st1 s2 G2), L1.
  rewrite <- buy_value_iff, <- sell_value_iff.
  pose proof (buy_sell_exclusive s2 (Some (open_interest s1))) as X.
  destruct (buy_value s2 (Some (open_interest s1)));
    destruct (sell_value s2 (Some (open_interest s1)));
    try discriminate X;
    try destruct (Qle_bool 3600 (now1 c2 - last_message st1));
    cbn [fst snd]; split; split; intro H; try reflexivity; discriminate H.
Qed.

Lemma signal_against_last_gathered_witness :
  exists s1,
    gather_data calm_world = Returns s1 /\
    last_oi (snd (fst (main_loop true
                         [mkCycle calm_world 1700000000 1700000001;
                          mkCycle price_feed_down 1700000300 1700000301]
                         (mkState None 0))))
    = Some (open_interest s1).
Proof.
  destruct calm_world_gathers as [s1 G].
  exists s1. split; [exact G|].
  refine (proj1 (signal_against_last_gathered
                   (mkCycle calm_world 1700000000 1700000001)
                   (mkCycle calm_world 1700000600 1700000601)
                   [mkCycle price_feed_down 1700000300 1700000301]
                   (mkState None 0) s1 s1 G _ G)).
  repeat constructor.
  exists "ConnectionError", "connection refused". reflexivity.
Defined.

(** ** The differential on a flat market, and an empty candle list *)

Lemma shaped_nil (k : nat) (P : Q -> Prop) : shaped k P [] -> k = 0%nat.
Proof.
  intros (vs & E & _). destruct k; [reflexivity|discriminate E].
Qed.

Lemma shaped_cons_inv (k : nat) (P : Q -> Prop) (x : option Q) (xs : series) :
  shaped k P (x :: xs) ->
  (exists k', k = S k' /\ x = None /\ shaped k' P xs) \/
  (exists v, k = 0%nat /\ x = Some v /\ P v /\ shaped 0 P xs).
Proof.
  intros (vs & E & HP). destruct k as [|k'].
  - right. destruct vs as [|v vs]; [discriminate E|].
    cbn in E. injection E as -> ->.
    inversion HP; subst. exists v. repeat split; try assumption.
    exists vs. split; [reflexivity|assumption].
  - left. cbn in E. injection E as -> ->.
    exists k'. repeat split. exists vs. split; [reflexivity|assumption].
Qed.

Lemma shaped_cons_none (k : nat) (P : Q -> Prop) (xs : series) :
  shaped k P xs -> shaped (S k) P (None :: xs).
Proof.
  intros (vs & -> & HP). exists vs. split; [reflexivity|assumption].
Qed.

Lemma shaped_cons_some (P : Q -> Prop) (v : Q) (xs : series) :
  P v -> shaped 0 P xs -> shaped 0 P (Some v :: xs).
Proof.
  intros Hv (vs & -> & HP). exists (v :: vs).
  split; [reflexivity|now constructor].
Qed.

Lemma shaped_length (k : nat) (P : Q -> Prop) (xs : series) :
  shaped k P xs -> (k <= List.length xs)%nat.
Proof.
  intros (vs & -> & _). rewrite length_app, repeat_length. lia.
Qed.

Lemma shaped_weaken (k : nat) (P R : Q -> Prop) (xs : series) :
  (forall v, P v -> R v) -> shaped k P xs -> shaped k R xs.
Proof.
  intros H (vs & -> & HP). exists vs. split; [reflexivity|].
  revert HP. now apply Forall_impl.
Qed.

(** The last cell of a shaped series: a number once the series is longer
    than its NaN prefix, NaN otherwise. *)
Lemma shaped_last (P : Q -> Prop) (xs : series) :
  forall k,
    shaped k P xs -> xs <> [] ->
    ((k < List.length xs)%nat -> exists v, last xs None = Some v /\ P v) /\
    (k = List.length xs -> last xs None = None).
Proof.
  induction xs as [|x xs IH]; intros k H Hne; [congruence|].
  destruct xs as [|x2 xs].
  - destruct (shaped_cons_inv _ _ _ _ H) as [(k' & -> & -> & H')|(v & -> & -> & Hv & H')].
    + split; [|reflexivity]. apply shaped_nil in H'. subst. cbn. lia.
    + split; [|discriminate]. intros _. now exists v.
  - rewrite last_cons_nonempty by discriminate.
    destruct (shaped_cons_inv _ _ _ _ H) as [(k' & -> & -> & H')|(v & -> & -> & Hv & H')].
    + destruct (IH k' H') as [I1 I2]; [discriminate|].
      split; intro L; [apply I1|apply I2]; cbn [List.length] in *; lia.
    + destruct (IH 0%nat H') as [I1 _]; [discriminate|].
      split; [|discriminate]. intros _. apply I1. cbn. lia.
Qed.

Section Shapes.
Variable alpha : Q.
Variable minp : nat.
Variable P : Q -> Prop.
Hypothesis smoothing : forall y x, P y -> P x -> P ((1 - alpha) * y + alpha * x).

Lemma ewm_mean_started :
  forall vs y n,
    P y -> Forall P vs ->
    shaped (Nat.min (minp - 1 - n) (List.length vs)) P
           (ewm_mean alpha minp (Some y) n (map Some vs)).
Proof.
  induction vs as [|x r IH]; intros y n Hy Hvs.
  - cbn. rewrite Nat.min_0_r. exists []. split; [reflexivity|constructor].
  - inversion Hvs as [|x' r' Hx Hr]; subst.
    cbn [map ewm_mean List.length].
    specialize (IH ((1 - alpha) * y + alpha * x) (S n) (smoothing y x Hy Hx) Hr).
    destruct (minp <=? S n)%nat eqn:E.
    + apply Nat.leb_le in E.
      replace (minp - 1 - n)%nat with 0%nat by lia.
      replace (minp - 1 - S n)%nat with 0%nat in IH by lia.
      cbn [Nat.min] in *.
      apply shaped_cons_some; [now apply smoothing|exact IH].
    + apply Nat.leb_gt in E.
      replace (minp - 1 - n)%nat with (S (minp - 1 - S n)) by lia.
      cbn [Nat.min]. now apply shaped_cons_none.
Qed.

Lemma ewm_of_values :
  forall vs,
    Forall P vs ->
    shaped (Nat.min (minp - 1) (List.length vs)) P
           (ewm_mean alpha minp None 0 (map Some vs)).
Proof.
  intros [|v r] Hvs.
  - cbn. rewrite Nat.min_0_r. exists []. split; [reflexivity|constructor].
  - inversion Hvs as [|v' r' Hv Hr]; subst.
    cbn [map ewm_mean List.length].
    pose proof (ewm_mean_started r v 1 Hv Hr) as S1.
    destruct (minp <=? 1)%nat eqn:E.
    + apply Nat.leb_le in E.
      replace (minp - 1)%nat with 0%nat by lia.
      replace (minp - 1 - 1)%nat with 0%nat in S1 by lia.
      cbn [Nat.min] in *. now apply shaped_cons_some.
    + apply Nat.leb_gt in E.
      replace (minp - 1)%nat with (S (minp - 1 - 1)) by lia.
      cbn [Nat.min]. now apply shaped_cons_none.
Qed.

(** Smoothing a shaped series lengthens its NaN prefix by [minp - 1] cells,
    as far as the series goes. *)
Lemma ewm_shaped :
  forall k xs,
    shaped k P xs ->
    shaped (k + Nat.min (minp - 1) (List.length xs - k)) P (ewm alpha minp xs).
Proof.
  unfold ewm. intros k xs (vs & -> & Hvs).
  rewrite length_app, repeat_length.
  replace (k + List.length (map Some vs) - k)%nat with (List.length vs)
    by (rewrite length_map; lia).
  induction k as [|k IH].
  - cbn [repeat app Nat.add]. now apply ewm_of_values.
  - cbn [repeat app ewm_mean Nat.add].
    replace (if (minp <=? 0)%nat then @None Q else None) with (@None Q)
      by now destruct (minp <=? 0)%nat.
    now apply shaped_cons_none.
Qed.
End Shapes.

(** A cell of a difference is a number where both operands are. *)
Lemma series_sub_shaped (P1 P2 R : Q -> Prop) :
  (forall x y, P1 x -> P2 y -> R (x - y)) ->
  forall a b k1 k2,
    shaped k1 P1 a -> shaped k2 P2 b ->
    List.length a = List.length b ->
    shaped (Nat.max k1 k2) R (series_sub a b).
Proof.
  intros HR. unfold series_sub.
  induction a as [|x a IH]; intros [|y b] k1 k2 Ha Hb Hlen;
    try discriminate Hlen.
  - apply shaped_nil in Ha. apply shaped_nil in Hb. subst.
    exists []. split; [reflexivity|constructor].
  - injection Hlen as Hlen. cbn [combine map].
    destruct (shaped_cons_inv _ _ _ _ Ha)
      as [(k1' & -> & -> & Ha')|(vx & -> & -> & Hvx & Ha')];
    destruct (shaped_cons_inv _ _ _ _ Hb)
      as [(k2' & -> & -> & Hb')|(vy & -> & -> & Hvy & Hb')].
    + cbn [Nat.max]. apply shaped_cons_none. now apply IH.
    + replace (Nat.max (S k1') 0) with (S (Nat.max k1' 0)) by lia.
      apply shaped_cons_none. now apply IH.
    + cbn [Nat.max]. replace (S k2') with (S (Nat.max 0 k2')) by lia.
      apply shaped_cons_none. now apply IH.
    + cbn [Nat.max]. apply shaped_cons_some; [now apply HR|].
      change 0%nat with (Nat.max 0 0). now apply IH.
Qed.

Lemma values_shaped (P : Q -> Prop) (vs : list Q) :
  Forall P vs -> shaped 0 P (map Some vs).
Proof. intro H. exists vs. split; [reflexivity|assumption]. Qed.

(** The differential before its cells are turned into floats: undefined in
    the first 25 cells, or in all of them if there are fewer, and a number
    from the 26th on. *)
Lemma macd_diff_shaped (P L D : Q -> Prop) (closes : list Q) :
  (forall a y x, P y -> P x -> P ((1 - a) * y + a * x)) ->
  (forall x y, P x -> P y -> L (x - y)) ->
  (forall a y x, L y -> L x -> L ((1 - a) * y + a * x)) ->
  (forall x y, L x -> L y -> D (x - y)) ->
  Forall P closes ->
  shaped (Nat.min 25 (List.length closes)) D
         (series_sub
            (series_sub (ema (map Some closes) 12) (ema (map Some closes) 26))
            (ewm (2 / (inject_Z (Z.of_nat 9) + 1)) 1
                 (series_sub (ema (map Some closes) 12)
                             (ema (map Some closes) 26)))).
Proof.
  intros HP HPL HL HLD Hc.
  set (n := List.length closes).
  pose proof (values_shaped P closes Hc) as S0.
  assert (Ln : List.length (map Some closes) = n) by apply length_map.
  assert (Sfast : shaped (Nat.min 11 n) P (ema (map Some closes) 12)).
  { pose proof (ewm_shaped (2 / (inject_Z (Z.of_nat 12) + 1)) 12 P (HP _)
                  0 _ S0) as H.
    rewrite Ln in H. cbn [Nat.add Nat.sub] in H.
    now rewrite Nat.sub_0_r in H. }
  assert (Sslow : shaped (Nat.min 25 n) P (ema (map Some closes) 26)).
  { pose proof (ewm_shaped (2 / (inject_Z (Z.of_nat 26) + 1)) 26 P (HP _)
                  0 _ S0) as H.
    rewrite Ln in H. cbn [Nat.add Nat.sub] in H.
    now rewrite Nat.sub_0_r in H. }
  set (line := series_sub (ema (map Some closes) 12) (ema (map Some closes) 26)).
  assert (Lline : List.length line = n).
  { unfold line, ema, ewm.
    rewrite length_series_sub, !length_ewm_mean, Ln. apply Nat.min_id. }
  assert (Sline : shaped (Nat.min 25 n) L line).
  { replace (Nat.min 25 n) with (Nat.max (Nat.min 11 n) (Nat.min 25 n)) by lia.
    apply (series_sub_shaped P P L HPL); try assumption.
    unfold ema, ewm. now rewrite !length_ewm_mean. }
  assert (Ssignal : shaped (Nat.min 25 n) L
                      (ewm (2 / (inject_Z (Z.of_nat 9) + 1)) 1 line)).
  { pose proof (ewm_shaped (2 / (inject_Z (Z.of_nat 9) + 1)) 1 L (HL _)
                  _ _ Sline) as H.
    rewrite Lline in H.
    replace (Nat.min 25 n + Nat.min (1 - 1) (n - Nat.min 25 n))%nat
      with (Nat.min 25 n) in H by lia.
    exact H. }
  replace (Nat.min 25 n) with (Nat.max (Nat.min 25 n) (Nat.min 25 n)) by lia.
  apply (series_sub_shaped L L D HLD); try assumption.
  unfold ewm. now rewrite length_ewm_mean.
Qed.

Lemma MACD_macd_diff_last (closes : list Q) :
  closes <> [] ->
  iloc_last (MACD_macd_diff closes 26 12 9)
  = Returns
      (of_cell
         (last (series_sub
                  (series_sub (ema (map Some closes) 12) (ema (map Some closes) 26))
                  (ewm (2 / (inject_Z (Z.of_nat 9) + 1)) 1
                       (series_sub (ema (map Some closes) 12)
                                   (ema (map Some closes) 26))))
               None)).
Proof.
  intro Hne.
  rewrite (iloc_last_nonempty _ (of_cell None) (MACD_macd_diff_nonempty closes Hne)).
  unfold MACD_macd_diff. now rewrite last_map.
Qed.

Lemma macd_series_length (closes : list Q) :
  List.length
    (series_sub
       (series_sub (ema (map Some closes) 12) (ema (map Some closes) 26))
       (ewm (2 / (inject_Z (Z.of_nat 9) + 1)) 1
            (series_sub (ema (map Some closes) 12) (ema (map Some closes) 26))))
  = List.length closes.
Proof.
  pose proof (length_MACD_macd_diff closes 26 12 9) as H.
  unfold MACD_macd_diff in H. now rewrite length_map in H.
Qed.

(** X13.  On a flat market the differential is zero: when all of at least 34
    closing prices are equal, both means equal that price in every cell, the
    MACD line and its signal are zero, and the stored differential is 0. *)
Theorem macd_of_flat_closes :
  forall (closes : list Q) (price : Q),
    Forall (fun x => x == price) closes ->
    (34 <= List.length closes)%nat ->
    exists m, iloc_last (MACD_macd_diff closes 26 12 9) = Returns (Fin m) /\
              m == 0.
Proof.
  intros closes price Hflat Hlen.
  assert (Hne : closes <> []) by (apply length_nonempty; lia).
  rewrite (MACD_macd_diff_last closes Hne).
  pose proof (macd_diff_shaped (fun x => x == price) (fun x => x == 0)
                (fun x => x == 0) closes) as S.
  assert (S' : shaped (Nat.min 25 (List.length closes)) (fun x => x == 0)
                 (series_sub
                    (series_sub (ema (map Some closes) 12)
                                (ema (map Some closes) 26))
                    (ewm (2 / (inject_Z (Z.of_nat 9) + 1)) 1
                         (series_sub (ema (map Some closes) 12)
                                     (ema (map Some closes) 26))))).
  { apply S; try assumption.
    - intros a y x -> ->. ring.
    - intros x y -> ->. ring.
    - intros a y x -> ->. ring.
    - intros x y -> ->. ring. }
  pose proof (macd_series_length closes) as Len.
  set (d := series_sub _ _) in *.
  assert (Dne : d <> []).
  { apply length_nonempty. rewrite Len. lia. }
  destruct (shaped_last _ d _ S' Dne) as [Defined_ _].
  destruct Defined_ as (m & -> & Hm); [rewrite Len; lia|].
  now exists m.
Qed.

Lemma macd_of_flat_closes_witness :
  exists m, iloc_last (MACD_macd_diff (repeat 3000 40) 26 12 9) = Returns (Fin m) /\
            m == 0.
Proof.
  apply (macd_of_flat_closes (repeat 3000 40) 3000).
  - repeat constructor.
  - cbn. lia.
Defined.

(** X14.  An empty candle list is an error, not a NaN: [fetch_rsi_macd]
    raises on its way to the last RSI cell, before anything is stored, so
    [gather_data] raises too, and the loop prints the error line and keeps
    its state. *)
Theorem empty_klines_raise :
  forall (w : World) (s : MarketSnapshot),
    binance_klines w = Returns [] ->
    (exists cls msg, fetch_rsi_macd w s = (Raises (PyError cls msg), s)) /\
    (forall d, coingecko_eth w = Returns d ->
       exists cls msg,
         gather_data w = Raises (PyError cls msg) /\
         forall c st, world c = w ->
           iteration c st = (st, [Print ("Error: " ++ msg)], None)).
Proof.
  intros w s Hk. split.
  - unfold fetch_rsi_macd, bind, lift. rewrite Hk. cbn.
    do 2 eexists. reflexivity.
  - intros [[price cap] vol] He.
    assert (G : gather_data w = Raises InsufficientData).
    { destruct w as [eth klines fr oi btc total fg ff].
      cbn [coingecko_eth binance_klines] in *. subst. reflexivity. }
    do 2 eexists. split; [exact G|].
    intros c st <-. now apply (iteration_gather_error c st "InsufficientData").
Qed.

Lemma empty_klines_raise_witness :
  exists cls msg,
    fetch_rsi_macd (with_binance_klines (Returns []) calm_world) new_snapshot
    = (Raises (PyError cls msg), new_snapshot).
Proof.
  apply (proj1 (empty_klines_raise
                  (with_binance_klines (Returns []) calm_world) new_snapshot
                  eq_refl)).
Defined.

(** X15.  The heartbeat is not only throttled, it is also due: over a span
    of quiet iterations in continuous mode at least one heartbeat is printed
    if and only if some iteration of the span starts 3600 units or more after
    the last message the span began with. *)
Theorem heartbeat_is_due :
  forall (cs : list Cycle) (st : CycleState),
    quiet_span cs st = true ->
    ((1 <= heartbeats (fst (fst (main_loop true cs st))))%nat <->
     Exists (fun c => 3600 <= now1 c - last_message st) cs).
Proof.
  intros cs st Hq.
  destruct (first_reaching (last_message st) cs)
    as [H|(pre & c & post & -> & Hpre & Hc)].
  - destruct (main_loop_quiet_idle cs st Hq H) as (st' & Run & _).
    rewrite Run. cbn [fst]. rewrite heartbeats_idle. split; [lia|].
    intro E. apply Exists_exists in E. destruct E as (c & Hin & Hc).
    rewrite Forall_forall in H. specialize (H c Hin). lra.
  - split; [intros _; apply Exists_app; right; now constructor|intros _].
    destruct (quiet_span_app _ _ _ Hq) as [Hq1 Hq2].
    destruct (main_loop_quiet_idle pre st Hq1 Hpre) as (st1 & Run1 & Lm1).
    rewrite Run1 in Hq2. cbn [fst snd] in Hq2.
    rewrite (main_loop_app _ _ _ _ _ Run1).
    cbn [quiet_span] in Hq2. apply andb_true_iff in Hq2. destruct Hq2 as [Hqc _].
    destruct (iteration_quiet c st1 Hqc) as (snap & _ & It).
    assert (E : Qle_bool 3600 (now1 c - last_message st1) = true).
    { apply Qle_bool_iff. now rewrite Lm1. }
    rewrite E in It. cbn [main_loop]. rewrite It. cbn [negb].
    destruct (main_loop true post _) as [[rest st2] r]. cbn [fst].
    rewrite heartbeats_app.
    change (heartbeats ([Print HEARTBEAT] ++ Sleep 300 :: rest))
      with (S (heartbeats rest)).
    lia.
Qed.

Lemma heartbeat_is_due_witness :
  (1 <= heartbeats (fst (fst (main_loop true (ten_cycles calm_world 1700000000)
                                        (mkState None 0)))))%nat <->
  Exists (fun c => 3600 <= now1 c - last_message (mkState None 0))
         (ten_cycles calm_world 1700000000).
Proof.
  apply (heartbeat_is_due (ten_cycles calm_world 1700000000) (mkState None 0)).
  exact ten_cycles_quiet.
Defined.

(** X16.  A NaN in any float the decision reads blocks both signals: when
    the price, the dominance, the funding rate, the open interest or the
    previous open interest is NaN, [evaluate] returns none. *)
Theorem evaluate_nan_anywhere :
  forall (s : MarketSnapshot) (previous : option pyfloat),
    eth_price s = NaN \/ btc_dominance s = NaN \/ funding_rate s = NaN \/
    open_interest s = NaN \/ previous = Some NaN ->
    evaluate previous s = (Returns None, s).
Proof.
  intros s previous H.
  assert (Fle_nan : forall b, fle NaN b = false) by reflexivity.
  apply buy_sell_false; unfold buy_value, sell_value, fgt;
    destruct H as [H|[H|[H|[H|H]]]]; rewrite H;
    rewrite ?flt_nan_l, ?flt_nan_r, ?Fle_nan;
    try (destruct previous; rewrite ?flt_nan_l, ?flt_nan_r);
    now rewrite ?andb_false_r.
Qed.

Lemma evaluate_nan_anywhere_witness :
  evaluate (Some NaN)
           (mkSnapshot (Fin 3600) (Fin 0) (Fin 0) (Fin 65) (Fin (12 # 10))
                       (Fin (-1 # 1000)) (Fin 12000) (Fin 58) 70 [])
  = (Returns None,
     mkSnapshot (Fin 3600) (Fin 0) (Fin 0) (Fin 65) (Fin (12 # 10))
                (Fin (-1 # 1000)) (Fin 12000) (Fin 58) 70 []).
Proof.
  apply evaluate_nan_anywhere. do 4 right. reflexivity.
Defined.
